(** * bdlt_datetime: a shallow embedding of [bdlt::Datetime]

    The component [bdlt_datetime.h] composes a [bdlt::Date] and a
    [bdlt::Time] into one value.  This development embeds the inline
    definitions of that header as Rocq functions over [Z] and proves the
    properties the component's specification states about them.

    The header delegates to three collaborators whose source is not part of
    the component ([bdlt_date], [bdlt_time], [bdlt_datetimeinterval]) and to
    the constants of [bdlt_timeunitratio].  They are modelled from the
    contract the specification gives for them; every such definition says
    so in its documentation. *)

From Stdlib Require Import ZArith Lia Bool List.
From Stdlib Require Import Init.Byte Strings.Byte.
Import ListNotations.

Local Open Scope Z_scope.
Local Open Scope bool_scope.

(** ** Machine integers *)

(** [static_cast<int>(x)]: the value of [x] reduced to 32 bits, two's
    complement. *)
Definition static_cast_int (x : Z) : Z :=
  (x + 2 ^ 31) mod 2 ^ 32 - 2 ^ 31.

(** The value of a [bsls::Types::Int64] expression, reduced to 64 bits. *)
Definition wrapInt64 (x : Z) : Z :=
  (x + 2 ^ 63) mod 2 ^ 64 - 2 ^ 63.

(** Addition of two [int] values, reduced to 32 bits. *)
Definition addInt (a b : Z) : Z := static_cast_int (a + b).

Definition inInt (x : Z) : Prop := - 2 ^ 31 <= x < 2 ^ 31.
Definition inInt64 (x : Z) : Prop := - 2 ^ 63 <= x < 2 ^ 63.

(** ** TimeUnitRatio *)

Module TimeUnitRatio.

(** Modelled from the spec: the constants of [bdlt_timeunitratio], which
    the header only names; milliseconds per second, minute, hour, day. *)
Definition k_MS_PER_S_32 : Z := 1000.
Definition k_MS_PER_M_32 : Z := 60 * k_MS_PER_S_32.
Definition k_MS_PER_H_32 : Z := 60 * k_MS_PER_M_32.
Definition k_MS_PER_D_32 : Z := 24 * k_MS_PER_H_32.

End TimeUnitRatio.

(** The private enumeration of [class Datetime]. *)
Definition k_MILLISECONDS_PER_DAY : Z := TimeUnitRatio.k_MS_PER_D_32.
Definition k_MILLISECONDS_PER_HOUR : Z := TimeUnitRatio.k_MS_PER_H_32.
Definition k_MILLISECONDS_PER_MINUTE : Z := TimeUnitRatio.k_MS_PER_M_32.
Definition k_MILLISECONDS_PER_SECOND : Z := TimeUnitRatio.k_MS_PER_S_32.

(** ** Date *)

Module Date.

(** Modelled from the spec: [bdlt::Date], a calendar date of the proleptic
    Gregorian calendar in the years 1 to 9999, held as the number of the
    day counted from 0001-01-01 (which is day 1). *)
Record t : Set := mk { d_serialDate : Z }.

Definition k_MAX_SERIAL : Z := 3652059.

Definition isLeapYear (year : Z) : bool :=
  ((year mod 4 =? 0) && negb (year mod 100 =? 0)) || (year mod 400 =? 0).

Definition daysInMonth (year month : Z) : Z :=
  match month with
  | 1 => 31 | 2 => if isLeapYear year then 29 else 28
  | 3 => 31 | 4 => 30 | 5 => 31 | 6 => 30
  | 7 => 31 | 8 => 31 | 9 => 30 | 10 => 31 | 11 => 30 | 12 => 31
  | _ => 0
  end.

Definition daysInYear (year : Z) : Z :=
  if isLeapYear year then 366 else 365.

(** Modelled from the spec: the validity predicate on (year, month, day). *)
Definition isValidYearMonthDay (year month day : Z) : bool :=
  (1 <=? year) && (year <=? 9999) && (1 <=? month) && (month <=? 12)
  && (1 <=? day) && (day <=? daysInMonth year month).

(** Modelled from the spec: the validity predicate on (year, dayOfYear). *)
Definition isValidYearDay (year dayOfYear : Z) : bool :=
  (1 <=? year) && (year <=? 9999)
  && (1 <=? dayOfYear) && (dayOfYear <=? daysInYear year).

Definition isValidSerial (serial : Z) : bool :=
  (1 <=? serial) && (serial <=? k_MAX_SERIAL).

Definition daysBeforeYear (year : Z) : Z :=
  365 * (year - 1) + (year - 1) / 4 - (year - 1) / 100 + (year - 1) / 400.

Definition daysBeforeMonth (year month : Z) : Z :=
  let leap := if isLeapYear year then 1 else 0 in
  match month with
  | 1 => 0 | 2 => 31 | 3 => 59 + leap | 4 => 90 + leap
  | 5 => 120 + leap | 6 => 151 + leap | 7 => 181 + leap
  | 8 => 212 + leap | 9 => 243 + leap | 10 => 273 + leap
  | 11 => 304 + leap | 12 => 334 + leap
  | _ => 0
  end.

(** [Date()], the default value 0001-01-01. *)
Definition default : t := mk 1.

(** [Date(year, month, day)] and [setYearMonthDay]. *)
Definition ofYearMonthDay (year month day : Z) : t :=
  mk (daysBeforeYear year + daysBeforeMonth year month + day).

(** [setYearDay]. *)
Definition ofYearDay (year dayOfYear : Z) : t :=
  mk (daysBeforeYear year + dayOfYear).

(** Modelled from the spec: addition of a signed day count,
    [operator+=(int)]; its result is a date only when in range. *)
Definition addDays (d : t) (days : Z) : t := mk (d_serialDate d + days).

(** Modelled from the spec: the checked variant, which reports failure by
    a non-zero value and then leaves the date as it was. *)
Definition addDaysIfValid (d : t) (days : Z) : Z * t :=
  if isValidSerial (d_serialDate d + days)
  then (0, addDays d days) else (-1, d).

(** Modelled from the spec: subtraction of two dates, a signed day
    count. *)
Definition sub (a b : t) : Z := d_serialDate a - d_serialDate b.

Definition eqb (a b : t) : bool := d_serialDate a =? d_serialDate b.
Definition ltb (a b : t) : bool := d_serialDate a <? d_serialDate b.
Definition gtb (a b : t) : bool := d_serialDate b <? d_serialDate a.

(** The values a [Date] object can hold. *)
Definition valid (d : t) : Prop := 1 <= d_serialDate d <= k_MAX_SERIAL.

End Date.

(** ** DatetimeInterval *)

Module DatetimeInterval.

(** Modelled from the spec: [bdlt::DatetimeInterval], a signed duration,
    held as its total number of milliseconds. *)
Record t : Set := mk { totalMilliseconds : Z }.

(** [DatetimeInterval(days, hours, minutes, seconds, milliseconds)]. *)
Definition ofFields (days hours minutes seconds milliseconds : Z) : t :=
  mk (days * TimeUnitRatio.k_MS_PER_D_32
      + hours * TimeUnitRatio.k_MS_PER_H_32
      + minutes * TimeUnitRatio.k_MS_PER_M_32
      + seconds * TimeUnitRatio.k_MS_PER_S_32
      + milliseconds).

Definition add (a b : t) : t := mk (totalMilliseconds a + totalMilliseconds b).
Definition neg (a : t) : t := mk (- totalMilliseconds a).
Definition leb (a b : t) : bool := totalMilliseconds a <=? totalMilliseconds b.
Definition geb (a b : t) : bool := totalMilliseconds b <=? totalMilliseconds a.

End DatetimeInterval.

(** ** Time *)

Module Time.

(** Modelled from the spec: [bdlt::Time], a time of day at millisecond
    resolution, held as the milliseconds since midnight; 24:00:00.000,
    the default value, is [k_MS_PER_D_32]. *)
Record t : Set := mk { d_milliseconds : Z }.

(** [Time()], the reserved value 24:00:00.000. *)
Definition default : t := mk TimeUnitRatio.k_MS_PER_D_32.

(** Modelled from the spec: the validity predicate on (hour, minute,
    second, millisecond); hour 24 only for 24:00:00.000. *)
Definition isValid (hour minute second millisecond : Z) : bool :=
  ((0 <=? hour) && (hour <? 24) && (0 <=? minute) && (minute <? 60)
   && (0 <=? second) && (second <? 60)
   && (0 <=? millisecond) && (millisecond <? 1000))
  || ((24 =? hour) && (0 =? minute) && (0 =? second) && (0 =? millisecond)).

(** [Time(hour, minute, second, millisecond)] and [setTime]. *)
Definition ofFields (hour minute second millisecond : Z) : t :=
  mk (hour * TimeUnitRatio.k_MS_PER_H_32
      + minute * TimeUnitRatio.k_MS_PER_M_32
      + second * TimeUnitRatio.k_MS_PER_S_32
      + millisecond).

Definition hour (x : t) : Z := d_milliseconds x / TimeUnitRatio.k_MS_PER_H_32.
Definition minute (x : t) : Z :=
  d_milliseconds x mod TimeUnitRatio.k_MS_PER_H_32 / TimeUnitRatio.k_MS_PER_M_32.
Definition second (x : t) : Z :=
  d_milliseconds x mod TimeUnitRatio.k_MS_PER_M_32 / TimeUnitRatio.k_MS_PER_S_32.
Definition millisecond (x : t) : Z :=
  d_milliseconds x mod TimeUnitRatio.k_MS_PER_S_32.

Definition eqb (a b : t) : bool := d_milliseconds a =? d_milliseconds b.
Definition ltb (a b : t) : bool := d_milliseconds a <? d_milliseconds b.
Definition gtb (a b : t) : bool := d_milliseconds b <? d_milliseconds a.
Definition leb (a b : t) : bool := d_milliseconds a <=? d_milliseconds b.
Definition geb (a b : t) : bool := d_milliseconds b <=? d_milliseconds a.

(** Milliseconds since midnight, with 24:00:00.000 read as 00:00:00.000:
    the reserved value behaves as midnight under every manipulator. *)
Definition sinceMidnight (x : t) : Z :=
  if d_milliseconds x =? TimeUnitRatio.k_MS_PER_D_32 then 0
  else d_milliseconds x.

(** Modelled from the spec: [setHour]; 24 sets every other field to 0,
    any other hour leaves the reserved value first. *)
Definition setHour (x : t) (h : Z) : t :=
  if h =? 24 then default
  else mk (h * TimeUnitRatio.k_MS_PER_H_32
           + sinceMidnight x mod TimeUnitRatio.k_MS_PER_H_32).

(** Modelled from the spec: [setMinute], [setSecond], [setMillisecond];
    each sets one field, the hour being set to 0 first if it is 24. *)
Definition setMinute (x : t) (m : Z) : t :=
  let ms := sinceMidnight x in
  mk (ms / TimeUnitRatio.k_MS_PER_H_32 * TimeUnitRatio.k_MS_PER_H_32
      + m * TimeUnitRatio.k_MS_PER_M_32
      + ms mod TimeUnitRatio.k_MS_PER_M_32).

Definition setSecond (x : t) (s : Z) : t :=
  let ms := sinceMidnight x in
  mk (ms / TimeUnitRatio.k_MS_PER_M_32 * TimeUnitRatio.k_MS_PER_M_32
      + s * TimeUnitRatio.k_MS_PER_S_32
      + ms mod TimeUnitRatio.k_MS_PER_S_32).

Definition setMillisecond (x : t) (ms' : Z) : t :=
  let ms := sinceMidnight x in
  mk (ms / TimeUnitRatio.k_MS_PER_S_32 * TimeUnitRatio.k_MS_PER_S_32 + ms').

(** Modelled from the spec: the operation that adds a signed millisecond
    delta to the time of day and returns the signed number of whole days
    the addition overflowed or underflowed into, the time being wrapped
    into 00:00:00.000 .. 23:59:59.999. *)
Definition addMilliseconds (x : t) (milliseconds : Z) : t * Z :=
  let total := sinceMidnight x + milliseconds in
  (mk (total mod TimeUnitRatio.k_MS_PER_D_32),
   total / TimeUnitRatio.k_MS_PER_D_32).

(** Modelled from the spec: the same operation for a duration, the path
    of [operator+=]: the interval's whole days and the carry of its
    in-day part, summed. *)
Definition addInterval (x : t) (interval : DatetimeInterval.t) : t * Z :=
  let totalMsec := DatetimeInterval.totalMilliseconds interval in
  let normMsec := Z.rem totalMsec TimeUnitRatio.k_MS_PER_D_32 in
  let wholeDays := Z.quot totalMsec TimeUnitRatio.k_MS_PER_D_32 in
  let (x', carry) := addMilliseconds x normMsec in
  (x', wholeDays + carry).

(** Modelled from the spec: subtraction of two times, a duration; 24 is
    read as 0 in either operand. *)
Definition sub (a b : t) : DatetimeInterval.t :=
  DatetimeInterval.ofFields 0 0 0 0
    (d_milliseconds a mod TimeUnitRatio.k_MS_PER_D_32
     - d_milliseconds b mod TimeUnitRatio.k_MS_PER_D_32).

(** The values a [Time] object can hold. *)
Definition valid (x : t) : Prop :=
  0 <= d_milliseconds x <= TimeUnitRatio.k_MS_PER_D_32.

End Time.

(** ** BDEX streams *)

Module Bdex.

(** An in-memory input stream: the bytes not yet read and the validity
    flag that [if (stream)] tests and [invalidate] clears. *)
Record InStream : Set := mkIn { in_bytes : list byte; in_valid : bool }.

(** An in-memory output stream: the bytes written so far and the
    validity flag. *)
Record OutStream : Set := mkOut { out_bytes : list byte; out_valid : bool }.

Definition invalidateIn (s : InStream) : InStream := mkIn (in_bytes s) false.
Definition invalidateOut (s : OutStream) : OutStream := mkOut (out_bytes s) false.

Definition openIn (bs : list byte) : InStream := mkIn bs true.
Definition openOut : OutStream := mkOut [] true.

(** Modelled from the spec: the version-1 sub-streams of [Date] and
    [Time].  Their layout belongs to the collaborators; what the
    composite relies on is that each reads back what it wrote and leaves
    the bytes that follow. *)
Class SubStreams : Type := {
  putDate : Date.t -> list byte;
  getDate : list byte -> option (Date.t * list byte);
  putTime : Time.t -> list byte;
  getTime : list byte -> option (Time.t * list byte);
  getDate_putDate : forall d rest,
    Date.valid d -> getDate (putDate d ++ rest) = Some (d, rest);
  getTime_putTime : forall x rest,
    Time.valid x -> getTime (putTime x ++ rest) = Some (x, rest)
}.

Section Collaborators.
Context {sub : SubStreams}.

(** Modelled from the spec: [Date::bdexStreamOut(stream, 1)] and
    [Time::bdexStreamOut(stream, 1)]; no effect on an invalid
    stream. *)
Definition Date_bdexStreamOut (s : OutStream) (d : Date.t) : OutStream :=
  if out_valid s then mkOut (out_bytes s ++ putDate d) true else s.

Definition Time_bdexStreamOut (s : OutStream) (x : Time.t) : OutStream :=
  if out_valid s then mkOut (out_bytes s ++ putTime x) true else s.

(** Modelled from the spec: [Date::bdexStreamIn(stream, 1)] and
    [Time::bdexStreamIn(stream, 1)]; no effect on an invalid stream,
    and a read that fails invalidates the stream and leaves the
    object. *)
Definition Date_bdexStreamIn (s : InStream) (d : Date.t) : InStream * Date.t :=
  if in_valid s then
    match getDate (in_bytes s) with
    | Some (d', rest) => (mkIn rest true, d')
    | None => (invalidateIn s, d)
    end
  else (s, d).

Definition Time_bdexStreamIn (s : InStream) (x : Time.t) : InStream * Time.t :=
  if in_valid s then
    match getTime (in_bytes s) with
    | Some (x', rest) => (mkIn rest true, x')
    | None => (invalidateIn s, x)
    end
  else (s, x).
End Collaborators.

(** Big-endian integers of [n] bytes, the way BDEX streams lay out
    [putInt24] and [putInt32]. *)
Definition byteOfZ (z : Z) : byte :=
  match Byte.of_N (Z.to_N (z mod 256)) with
  | Some b => b
  | None => x00
  end.

Definition zOfByte (b : byte) : Z := Z.of_N (Byte.to_N b).

Fixpoint putInt (n : nat) (z : Z) : list byte :=
  match n with
  | O => []
  | S n' => byteOfZ (z / 256 ^ Z.of_nat n') :: putInt n' z
  end.

Fixpoint getUint (n : nat) (acc : Z) (bs : list byte) : option (Z * list byte) :=
  match n with
  | O => Some (acc, bs)
  | S n' =>
      match bs with
      | [] => None
      | b :: bs' => getUint n' (acc * 256 + zOfByte b) bs'
      end
  end.

(** The concrete sub-streams: a date as its 3-byte serial day, a time as
    its 4-byte milliseconds; a value out of the type's range is
    refused. *)
Definition putDate3 (d : Date.t) : list byte := putInt 3 (Date.d_serialDate d).

Definition getDate3 (bs : list byte) : option (Date.t * list byte) :=
  match getUint 3 0 bs with
  | Some (z, rest) =>
      if Date.isValidSerial z then Some (Date.mk z, rest) else None
  | None => None
  end.

Definition putTime4 (x : Time.t) : list byte := putInt 4 (Time.d_milliseconds x).

Definition getTime4 (bs : list byte) : option (Time.t * list byte) :=
  match getUint 4 0 bs with
  | Some (z, rest) =>
      if (0 <=? z) && (z <=? TimeUnitRatio.k_MS_PER_D_32)
      then Some (Time.mk z, rest) else None
  | None => None
  end.

End Bdex.

(** ** Datetime *)

Module Datetime.

(** [class Datetime]: the two parts, [d_date] and [d_time]. *)
Record t : Set := mk { d_date : Date.t; d_time : Time.t }.

(** Class data. *)
Definition s_defaultDate : Date.t := Date.default.
Definition s_defaultTime : Time.t := Time.default.
Definition s_zeroTime : Time.t := Time.ofFields 0 0 0 0.

(** *** Private manipulator *)

Definition setTimeToZeroIfDefault (dt : t) : t :=
  if Time.eqb s_defaultTime (d_time dt) && Date.eqb s_defaultDate (d_date dt)
  then mk (d_date dt) s_zeroTime
  else dt.

(** *** Class methods *)

Definition isValid (year month day hour minute second millisecond : Z) : bool :=
  let partsValid :=
    Date.isValidYearMonthDay year month day
    && Time.isValid hour minute second millisecond in
  if negb partsValid then false
  else if (24 =? hour) && negb ((1 =? year) && (1 =? month) && (1 =? day))
  then false
  else true.

(** [isValid(bdlt::Date, bdlt::Time)]. *)
Definition isValidDateTime (date : Date.t) (time : Time.t) : bool :=
  if Time.eqb Time.default time && negb (Date.eqb Date.default date)
  then false
  else true.

Definition maxSupportedBdexVersion (versionSelector : Z) : Z := 1.

(** *** Creators *)

(** [Datetime()]. *)
Definition default : t := mk Date.default Time.default.

(** [Datetime(const Date&)]. *)
Definition ofDate (date : Date.t) : t := mk date (Time.ofFields 0 0 0 0).

(** [Datetime(const Date&, const Time&)]. *)
Definition ofDateTime (date : Date.t) (time : Time.t) : t := mk date time.

(** [Datetime(year, month, day, hour, minute, second, millisecond)]. *)
Definition ofFields (year month day hour minute second millisecond : Z) : t :=
  mk (Date.ofYearMonthDay year month day)
     (Time.ofFields hour minute second millisecond).

(** *** Accessors *)

Definition date (dt : t) : Date.t := d_date dt.
Definition time (dt : t) : Time.t := d_time dt.
Definition hour (dt : t) : Z := Time.hour (d_time dt).
Definition minute (dt : t) : Z := Time.minute (d_time dt).
Definition second (dt : t) : Z := Time.second (d_time dt).
Definition millisecond (dt : t) : Z := Time.millisecond (d_time dt).

(** *** Free operators on two values *)

(** [operator-(const Datetime&, const Datetime&)]. *)
Definition sub (lhs rhs : t) : DatetimeInterval.t :=
  let timeInterval1 :=
    DatetimeInterval.ofFields (Date.sub (d_date lhs) (d_date rhs)) 0 0 0 0 in
  let timeInterval2 := Time.sub (d_time lhs) (d_time rhs) in
  DatetimeInterval.add timeInterval1 timeInterval2.

(** [operator==] and [operator!=]. *)
Definition eqb (lhs rhs : t) : bool :=
  Date.eqb (date lhs) (date rhs) && Time.eqb (time lhs) (time rhs).

Definition neqb (lhs rhs : t) : bool :=
  negb (Date.eqb (date lhs) (date rhs)) || negb (Time.eqb (time lhs) (time rhs)).

(** The assertion of the four ordering operators. *)
Definition ordered_pre (lhs rhs : t) : bool :=
  negb (Time.eqb Time.default (time lhs)) && negb (Time.eqb Time.default (time rhs)).

(** [operator<], [operator<=], [operator>], [operator>=]. *)
Definition ltb (lhs rhs : t) : bool :=
  Date.ltb (date lhs) (date rhs)
  || (Date.eqb (date lhs) (date rhs) && Time.ltb (time lhs) (time rhs)).

Definition leb (lhs rhs : t) : bool :=
  Date.ltb (date lhs) (date rhs)
  || (Date.eqb (date lhs) (date rhs) && Time.leb (time lhs) (time rhs)).

Definition gtb (lhs rhs : t) : bool :=
  Date.gtb (date lhs) (date rhs)
  || (Date.eqb (date lhs) (date rhs) && Time.gtb (time lhs) (time rhs)).

Definition geb (lhs rhs : t) : bool :=
  Date.gtb (date lhs) (date rhs)
  || (Date.eqb (date lhs) (date rhs) && Time.geb (time lhs) (time rhs)).

(** *** Manipulators *)

(** The two assertions shared by [operator+=], [operator-=] and
    [addTime]: the interval keeps the value between
    0001-01-01 00:00:00.000 and 9999-12-31 23:59:59.999. *)
Definition inRange_pre (dt : t) (delta : DatetimeInterval.t) : bool :=
  DatetimeInterval.leb delta (sub (ofFields 9999 12 31 23 59 59 999) dt)
  && DatetimeInterval.geb delta (sub (ofFields 1 1 1 0 0 0 0) dt).

(** [operator+=(const DatetimeInterval&)]. *)
Definition addAssign (dt : t) (rhs : DatetimeInterval.t) : t :=
  let (time', days) := Time.addInterval (d_time dt) rhs in
  mk (Date.addDays (d_date dt) days) time'.

(** [operator-=(const DatetimeInterval&)]. *)
Definition subAssign (dt : t) (rhs : DatetimeInterval.t) : t :=
  let (time', days) := Time.addInterval (d_time dt) (DatetimeInterval.neg rhs) in
  mk (Date.addDays (d_date dt) days) time'.

Definition setDatetime_pre (year month day hour minute second millisecond : Z) : bool :=
  isValid year month day hour minute second millisecond.

Definition setDatetime (dt : t)
    (year month day hour minute second millisecond : Z) : t :=
  mk (Date.ofYearMonthDay year month day)
     (Time.ofFields hour minute second millisecond).

Definition k_SUCCESS : Z := 0.
Definition k_FAILURE : Z := -1.

Definition setDatetimeIfValid (dt : t)
    (year month day hour minute second millisecond : Z) : Z * t :=
  if isValid year month day hour minute second millisecond
  then (k_SUCCESS, setDatetime dt year month day hour minute second millisecond)
  else (k_FAILURE, dt).

Definition setDate (dt : t) (date : Date.t) : t :=
  let dt := setTimeToZeroIfDefault dt in
  mk date (d_time dt).

Definition setYearDay_pre (year dayOfYear : Z) : bool :=
  Date.isValidYearDay year dayOfYear.

Definition setYearDay (dt : t) (year dayOfYear : Z) : t :=
  let dt := setTimeToZeroIfDefault dt in
  mk (Date.ofYearDay year dayOfYear) (d_time dt).

Definition setYearMonthDay_pre (year month day : Z) : bool :=
  Date.isValidYearMonthDay year month day.

Definition setYearMonthDay (dt : t) (year month day : Z) : t :=
  let dt := setTimeToZeroIfDefault dt in
  mk (Date.ofYearMonthDay year month day) (d_time dt).

(** [setTime(const Time&)]. *)
Definition setTime_pre (dt : t) (time : Time.t) : bool :=
  isValidDateTime (d_date dt) time.

Definition setTime (dt : t) (time : Time.t) : t := mk (d_date dt) time.

(** [setTime(hour, minute, second, millisecond)]. *)
Definition setTimeFields_pre (dt : t) (hour minute second millisecond : Z) : bool :=
  Time.isValid hour minute second millisecond
  && isValidDateTime (d_date dt) (Time.ofFields hour minute second millisecond).

Definition setTimeFields (dt : t) (hour minute second millisecond : Z) : t :=
  mk (d_date dt) (Time.ofFields hour minute second millisecond).

Definition setHour_pre (dt : t) (hour : Z) : bool :=
  (0 <=? hour) && (hour <=? 24)
  && (negb (24 =? hour) || Date.eqb Date.default (d_date dt)).

Definition setHour (dt : t) (hour : Z) : t :=
  mk (d_date dt) (Time.setHour (d_time dt) hour).

Definition setMinute_pre (minute : Z) : bool := (0 <=? minute) && (minute <=? 59).

Definition setMinute (dt : t) (minute : Z) : t :=
  mk (d_date dt) (Time.setMinute (d_time dt) minute).

Definition setSecond_pre (second : Z) : bool := (0 <=? second) && (second <=? 59).

Definition setSecond (dt : t) (second : Z) : t :=
  mk (d_date dt) (Time.setSecond (d_time dt) second).

Definition setMillisecond_pre (millisecond : Z) : bool :=
  (0 <=? millisecond) && (millisecond <=? 999).

Definition setMillisecond (dt : t) (millisecond : Z) : t :=
  mk (d_date dt) (Time.setMillisecond (d_time dt) millisecond).

(** The assertion of [addDays] and of the four scalar adders:
    [0 == Date(d_date).addDaysIfValid(numDays)]. *)
Definition addDays_pre (dt : t) (days : Z) : bool :=
  0 =? fst (Date.addDaysIfValid (d_date dt) days).

Definition addDays (dt : t) (days : Z) : t :=
  let dt := setTimeToZeroIfDefault dt in
  mk (Date.addDays (d_date dt) days) (d_time dt).

Definition addTime (dt : t) (hours minutes seconds milliseconds : Z) : t :=
  let delta := DatetimeInterval.ofFields 0 hours minutes seconds milliseconds in
  let (time', days) := Time.addInterval (d_time dt) delta in
  mk (Date.addDays (d_date dt) days) time'.

(** The decomposition the four scalar adders write out:
    [normMsec  = static_cast<int>(totalMsec % k_MILLISECONDS_PER_DAY)] and
    [wholeDays = static_cast<int>(totalMsec / k_MILLISECONDS_PER_DAY)],
    with the truncating [%] and [/] of C++. *)
Definition normMsec (totalMsec : Z) : Z :=
  static_cast_int (Z.rem totalMsec k_MILLISECONDS_PER_DAY).

Definition wholeDays (totalMsec : Z) : Z :=
  static_cast_int (Z.quot totalMsec k_MILLISECONDS_PER_DAY).

(** The common tail of the four scalar adders:
    [numDays = wholeDays + d_time.addMilliseconds(normMsec)], an [int]
    sum, and [d_date += numDays]. *)
Definition numDays (dt : t) (totalMsec : Z) : Z :=
  addInt (wholeDays totalMsec)
         (snd (Time.addMilliseconds (d_time dt) (normMsec totalMsec))).

Definition addTotalMsec (dt : t) (totalMsec : Z) : t :=
  mk (Date.addDays (d_date dt) (numDays dt totalMsec))
     (fst (Time.addMilliseconds (d_time dt) (normMsec totalMsec))).

Definition addHours (dt : t) (hours : Z) : t :=
  let totalMsec := wrapInt64 (hours * k_MILLISECONDS_PER_HOUR) in
  addTotalMsec dt totalMsec.

Definition addMinutes (dt : t) (minutes : Z) : t :=
  let totalMsec := wrapInt64 (minutes * k_MILLISECONDS_PER_MINUTE) in
  addTotalMsec dt totalMsec.

Definition addSeconds (dt : t) (seconds : Z) : t :=
  let totalMsec := wrapInt64 (seconds * k_MILLISECONDS_PER_SECOND) in
  addTotalMsec dt totalMsec.

Definition addMilliseconds (dt : t) (milliseconds : Z) : t :=
  addTotalMsec dt milliseconds.

(** The assertion of a scalar adder, on the total it adds. *)
Definition addTotalMsec_pre (dt : t) (totalMsec : Z) : bool :=
  addDays_pre dt (numDays dt totalMsec).

(** *** Free operators with an interval *)

(** [operator+(const Datetime&, const DatetimeInterval&)]. *)
Definition plus (lhs : t) (rhs : DatetimeInterval.t) : t := addAssign lhs rhs.

(** [operator+(const DatetimeInterval&, const Datetime&)]. *)
Definition plus_l (lhs : DatetimeInterval.t) (rhs : t) : t := addAssign rhs lhs.

(** [operator-(const Datetime&, const DatetimeInterval&)]. *)
Definition minus (lhs : t) (rhs : DatetimeInterval.t) : t := subAssign lhs rhs.

(** *** Aspects *)

Section Streaming.
Context {sub : Bdex.SubStreams}.

Definition bdexStreamIn (stream : Bdex.InStream) (version : Z) (dt : t)
  : Bdex.InStream * t :=
  if Bdex.in_valid stream then
    match version with
    | 1 =>
        let dateTmp := Date.default in
        let timeTmp := Time.default in
        let (stream1, dateTmp) := Bdex.Date_bdexStreamIn stream dateTmp in
        let (stream2, timeTmp) := Bdex.Time_bdexStreamIn stream1 timeTmp in
        if Bdex.in_valid stream2
        then (stream2, mk dateTmp timeTmp)
        else (Bdex.invalidateIn stream2, dt)
    | _ => (Bdex.invalidateIn stream, dt)
    end
  else (stream, dt).

Definition bdexStreamOut (stream : Bdex.OutStream) (version : Z) (dt : t)
  : Bdex.OutStream :=
  if Bdex.out_valid stream then
    match version with
    | 1 =>
        let stream := Bdex.Date_bdexStreamOut stream (d_date dt) in
        Bdex.Time_bdexStreamOut stream (d_time dt)
    | _ => Bdex.invalidateOut stream
    end
  else stream.
End Streaming.

(** *** Invariant *)

(** The cross-field invariant: either the time is not 24:00:00.000 and
    both parts are valid in their own ranges, or the time is
    24:00:00.000 and the date is 0001-01-01. *)
Definition I1 (dt : t) : Prop :=
  (d_time dt <> Time.default /\ Date.valid (d_date dt) /\ Time.valid (d_time dt))
  \/ (d_time dt = Time.default /\ d_date dt = Date.default).

End Datetime.

(** ** The public contract *)

Module Contract.

(** The manipulators of the class, and the free operators that add or
    subtract an interval, as operations on a value. *)
Inductive op : Set :=
| AddAssign (rhs : DatetimeInterval.t)
| SubAssign (rhs : DatetimeInterval.t)
| SetDatetime (year month day hour minute second millisecond : Z)
| SetDatetimeIfValid (year month day hour minute second millisecond : Z)
| SetDate (date : Date.t)
| SetYearDay (year dayOfYear : Z)
| SetYearMonthDay (year month day : Z)
| SetTime (time : Time.t)
| SetTimeFields (hour minute second millisecond : Z)
| SetHour (hour : Z)
| SetMinute (minute : Z)
| SetSecond (second : Z)
| SetMillisecond (millisecond : Z)
| AddDays (days : Z)
| AddTime (hours minutes seconds milliseconds : Z)
| AddHours (hours : Z)
| AddMinutes (minutes : Z)
| AddSeconds (seconds : Z)
| AddMilliseconds (milliseconds : Z).

(** What each operation asserts of its arguments and of the object; a
    [Date] or [Time] argument is a value of its type. *)
Definition pre (o : op) (dt : Datetime.t) : Prop :=
  match o with
  | AddAssign rhs => Datetime.inRange_pre dt rhs = true
  | SubAssign rhs => Datetime.inRange_pre dt (DatetimeInterval.neg rhs) = true
  | SetDatetime y m d h mi s ms => Datetime.setDatetime_pre y m d h mi s ms = true
  | SetDatetimeIfValid _ _ _ _ _ _ _ => True
  | SetDate date => Date.valid date
  | SetYearDay y doy => Datetime.setYearDay_pre y doy = true
  | SetYearMonthDay y m d => Datetime.setYearMonthDay_pre y m d = true
  | SetTime time => Time.valid time /\ Datetime.setTime_pre dt time = true
  | SetTimeFields h mi s ms => Datetime.setTimeFields_pre dt h mi s ms = true
  | SetHour h => Datetime.setHour_pre dt h = true
  | SetMinute mi => Datetime.setMinute_pre mi = true
  | SetSecond s => Datetime.setSecond_pre s = true
  | SetMillisecond ms => Datetime.setMillisecond_pre ms = true
  | AddDays n => Datetime.addDays_pre dt n = true
  | AddTime h mi s ms =>
      Datetime.inRange_pre dt (DatetimeInterval.ofFields 0 h mi s ms) = true
  | AddHours n =>
      Datetime.addTotalMsec_pre dt (wrapInt64 (n * k_MILLISECONDS_PER_HOUR)) = true
  | AddMinutes n =>
      Datetime.addTotalMsec_pre dt (wrapInt64 (n * k_MILLISECONDS_PER_MINUTE)) = true
  | AddSeconds n =>
      Datetime.addTotalMsec_pre dt (wrapInt64 (n * k_MILLISECONDS_PER_SECOND)) = true
  | AddMilliseconds n => Datetime.addTotalMsec_pre dt n = true
  end.

Definition run (o : op) (dt : Datetime.t) : Datetime.t :=
  match o with
  | AddAssign rhs => Datetime.addAssign dt rhs
  | SubAssign rhs => Datetime.subAssign dt rhs
  | SetDatetime y m d h mi s ms => Datetime.setDatetime dt y m d h mi s ms
  | SetDatetimeIfValid y m d h mi s ms =>
      snd (Datetime.setDatetimeIfValid dt y m d h mi s ms)
  | SetDate date => Datetime.setDate dt date
  | SetYearDay y doy => Datetime.setYearDay dt y doy
  | SetYearMonthDay y m d => Datetime.setYearMonthDay dt y m d
  | SetTime time => Datetime.setTime dt time
  | SetTimeFields h mi s ms => Datetime.setTimeFields dt h mi s ms
  | SetHour h => Datetime.setHour dt h
  | SetMinute mi => Datetime.setMinute dt mi
  | SetSecond s => Datetime.setSecond dt s
  | SetMillisecond ms => Datetime.setMillisecond dt ms
  | AddDays n => Datetime.addDays dt n
  | AddTime h mi s ms => Datetime.addTime dt h mi s ms
  | AddHours n => Datetime.addHours dt n
  | AddMinutes n => Datetime.addMinutes dt n
  | AddSeconds n => Datetime.addSeconds dt n
  | AddMilliseconds n => Datetime.addMilliseconds dt n
  end.

(** The values reachable through the creators and the operations above,
    each used within its assertions.  Reading from a stream is treated
    apart. *)
Inductive reachable : Datetime.t -> Prop :=
| reach_default : reachable Datetime.default
| reach_ofDate date :
    Date.valid date -> reachable (Datetime.ofDate date)
| reach_ofDateTime date time :
    Date.valid date -> Time.valid time ->
    Datetime.isValidDateTime date time = true ->
    reachable (Datetime.ofDateTime date time)
| reach_ofFields y m d h mi s ms :
    Datetime.isValid y m d h mi s ms = true ->
    reachable (Datetime.ofFields y m d h mi s ms)
| reach_run o dt :
    reachable dt -> pre o dt -> reachable (run o dt).

(** Reachability when a value may also be read from a stream. *)
Inductive reachable_stream {sub : Bdex.SubStreams} : Datetime.t -> Prop :=
| reach_contract dt : reachable dt -> reachable_stream dt
| reach_streamIn stream version dt :
    reachable_stream dt ->
    reachable_stream (snd (Datetime.bdexStreamIn stream version dt))
| reach_run_stream o dt :
    reachable_stream dt -> pre o dt -> reachable_stream (run o dt).

End Contract.

(** * Properties *)

(** ** The usage examples of the header *)

(** Example 1 of the header: 8:43pm on January 6, 2013, plus 6 hours and
    9 seconds, by two routes; then ten days; then back. *)
Example usage_basic_syntax :
  let dt := Datetime.setDatetime Datetime.default 2013 1 6 20 43 0 0 in
  let dt2 := Datetime.addSeconds (Datetime.addHours dt 6) 9 in
  let dt3 := Datetime.addTime dt 6 0 9 0 in
  let dt3' := Datetime.addDays dt3 10 in
  let dt2' := Datetime.addHours dt2 240 in
  Datetime.default = Datetime.ofFields 1 1 1 24 0 0 0
  /\ dt2 = Datetime.ofFields 2013 1 7 2 43 9 0
  /\ Datetime.eqb dt2 dt3 = true
  /\ dt3' = Datetime.ofFields 2013 1 17 2 43 9 0
  /\ Datetime.eqb dt3' dt2' = true
  /\ Datetime.eqb dt (Datetime.addTime dt2' (-246) 0 (-10) 1000) = true.
Proof. repeat split. Qed.

(** Example 2 of the header: the night between sunset and sunrise in
    seven equal shifts. *)
Example usage_schedule :
  let sunset := Datetime.ofFields 2014 6 26 20 31 23 0 in
  let sunrise := Datetime.ofFields 2014 6 27 5 26 51 0 in
  let shiftLengthInMsec :=
    Z.quot (DatetimeInterval.totalMilliseconds (Datetime.sub sunrise sunset)) 7 in
  map (fun i => Datetime.addMilliseconds sunset (shiftLengthInMsec * i))
      [0; 1; 2; 3; 4; 5; 6; 7]
  = [ Datetime.ofFields 2014 6 26 20 31 23 0;
      Datetime.ofFields 2014 6 26 21 47 52 714;
      Datetime.ofFields 2014 6 26 23 4 22 428;
      Datetime.ofFields 2014 6 27 0 20 52 142;
      Datetime.ofFields 2014 6 27 1 37 21 856;
      Datetime.ofFields 2014 6 27 2 53 51 570;
      Datetime.ofFields 2014 6 27 4 10 21 284;
      Datetime.ofFields 2014 6 27 5 26 50 998 ].
Proof. reflexivity. Qed.

(** ** Booleans and machine integers *)

Ltac bool_to_prop :=
  repeat match goal with
  | H : _ && _ = true |- _ => apply andb_true_iff in H; destruct H
  | H : _ || _ = true |- _ => apply orb_true_iff in H; destruct H
  | H : negb _ = true |- _ => apply negb_true_iff in H
  | H : (_ =? _) = true |- _ => apply Z.eqb_eq in H
  | H : (_ =? _) = false |- _ => apply Z.eqb_neq in H
  | H : (_ <=? _) = true |- _ => apply Z.leb_le in H
  | H : (_ <=? _) = false |- _ => apply Z.leb_gt in H
  | H : (_ <? _) = true |- _ => apply Z.ltb_lt in H
  | H : (_ <? _) = false |- _ => apply Z.ltb_ge in H
  end.

Lemma static_cast_int_id x : inInt x -> static_cast_int x = x.
Proof.
  unfold inInt, static_cast_int. intros H.
  rewrite Z.mod_small; lia.
Qed.

Lemma wrapInt64_id x : inInt64 x -> wrapInt64 x = x.
Proof.
  unfold inInt64, wrapInt64. intros H.
  rewrite Z.mod_small; lia.
Qed.

Lemma Time_eq (a b : Time.t) :
  Time.d_milliseconds a = Time.d_milliseconds b -> a = b.
Proof. destruct a, b; simpl; congruence. Qed.

Lemma Date_eq (a b : Date.t) :
  Date.d_serialDate a = Date.d_serialDate b -> a = b.
Proof. destruct a, b; simpl; congruence. Qed.

Lemma Time_eqb_eq a b : Time.eqb a b = true <-> a = b.
Proof.
  unfold Time.eqb. rewrite Z.eqb_eq. split.
  - apply Time_eq.
  - now intros ->.
Qed.

Lemma Date_eqb_eq a b : Date.eqb a b = true <-> a = b.
Proof.
  unfold Date.eqb. rewrite Z.eqb_eq. split.
  - apply Date_eq.
  - now intros ->.
Qed.

Lemma Datetime_eqb_eq a b : Datetime.eqb a b = true <-> a = b.
Proof.
  unfold Datetime.eqb, Datetime.date, Datetime.time.
  rewrite andb_true_iff, Date_eqb_eq, Time_eqb_eq.
  destruct a, b; simpl. split.
  - intros [-> ->]; reflexivity.
  - intros H; injection H; auto.
Qed.

(** ** The validity oracle *)

(** C7.  The seven-field [isValid] is true exactly when (year, month, day)
    is a valid date, (hour, minute, second, millisecond) is a valid time,
    and the hour is not 24 unless the date is 0001-01-01.  It is a total
    function into [bool]. *)
Theorem isValid_iff (year month day hour minute second millisecond : Z) :
  Datetime.isValid year month day hour minute second millisecond = true
  <-> Date.isValidYearMonthDay year month day = true
      /\ Time.isValid hour minute second millisecond = true
      /\ (hour <> 24 \/ (year = 1 /\ month = 1 /\ day = 1)).
Proof.
  unfold Datetime.isValid.
  destruct (Date.isValidYearMonthDay year month day);
    destruct (Time.isValid hour minute second millisecond); cbn [andb negb];
    try (split; [discriminate | intros (? & ? & ?); discriminate]).
  destruct (Z.eqb_spec 24 hour) as [E | E];
    destruct (Z.eqb_spec 1 year), (Z.eqb_spec 1 month), (Z.eqb_spec 1 day);
    cbn [andb negb]; split;
    try discriminate;
    try (intros (_ & _ & [H | H]); solve [reflexivity | lia]);
    intros _; (split; [reflexivity | split; [reflexivity | lia]]).
Qed.

(** ** setDatetimeIfValid *)

(** C8.  [setDatetimeIfValid] returns 0 exactly when the seven fields
    satisfy [isValid], and then the value is the one the fields name;
    otherwise it returns a non-zero value and the object is unchanged. *)
Theorem setDatetimeIfValid_spec
    (dt : Datetime.t) (year month day hour minute second millisecond : Z) :
  let r := Datetime.setDatetimeIfValid dt year month day hour minute second millisecond in
  (fst r = 0
   <-> Datetime.isValid year month day hour minute second millisecond = true)
  /\ ((Datetime.isValid year month day hour minute second millisecond = true
       /\ fst r = 0
       /\ snd r = Datetime.ofFields year month day hour minute second millisecond)
      \/ (Datetime.isValid year month day hour minute second millisecond = false
          /\ fst r <> 0
          /\ snd r = dt)).
Proof.
  unfold Datetime.setDatetimeIfValid.
  destruct (Datetime.isValid year month day hour minute second millisecond); simpl.
  - split; [split; reflexivity | left; repeat split].
  - split; [split; discriminate | right; repeat split; discriminate].
Qed.

(** ** The comparator *)

Lemma ltb_lexicographic a b :
  Datetime.ltb a b = true
  <-> Date.d_serialDate (Datetime.d_date a) < Date.d_serialDate (Datetime.d_date b)
      \/ (Datetime.d_date a = Datetime.d_date b
          /\ Time.d_milliseconds (Datetime.d_time a)
             < Time.d_milliseconds (Datetime.d_time b)).
Proof.
  unfold Datetime.ltb, Datetime.date, Datetime.time, Date.ltb, Time.ltb.
  rewrite orb_true_iff, andb_true_iff, Date_eqb_eq, !Z.ltb_lt. reflexivity.
Qed.

Lemma gtb_ltb a b : Datetime.gtb a b = Datetime.ltb b a.
Proof.
  unfold Datetime.gtb, Datetime.ltb, Datetime.date, Datetime.time,
    Date.gtb, Date.ltb, Time.gtb, Time.ltb, Date.eqb.
  now rewrite (Z.eqb_sym (Date.d_serialDate (Datetime.d_date a))).
Qed.

(** C6.  On values whose time is not 24:00:00.000 the ordering operators
    are lexicographic on (date, time), exactly one of [a < b], [a == b],
    [a > b] holds, and [<] is transitive. *)
Theorem ordering_strict_total (a b c : Datetime.t) :
  Datetime.time a <> Time.default ->
  Datetime.time b <> Time.default ->
  Datetime.time c <> Time.default ->
  (Datetime.ltb a b =
     Date.ltb (Datetime.date a) (Datetime.date b)
     || (Date.eqb (Datetime.date a) (Datetime.date b)
         && Time.ltb (Datetime.time a) (Datetime.time b)))
  /\ ((Datetime.ltb a b = true /\ Datetime.eqb a b = false /\ Datetime.gtb a b = false)
      \/ (Datetime.ltb a b = false /\ Datetime.eqb a b = true /\ Datetime.gtb a b = false)
      \/ (Datetime.ltb a b = false /\ Datetime.eqb a b = false /\ Datetime.gtb a b = true))
  /\ (Datetime.ltb a b = true -> Datetime.ltb b c = true -> Datetime.ltb a c = true).
Proof.
  intros _ _ _. split; [reflexivity |].
  destruct a as [[da] [ta]], b as [[db] [tb]], c as [[dc] [tc]].
  unfold Datetime.ltb, Datetime.gtb, Datetime.eqb, Datetime.date, Datetime.time,
    Date.ltb, Date.gtb, Date.eqb, Time.ltb, Time.gtb, Time.eqb; simpl.
  split.
  - destruct (Z.ltb_spec da db), (Z.ltb_spec db da), (Z.eqb_spec da db),
      (Z.ltb_spec ta tb), (Z.ltb_spec tb ta), (Z.eqb_spec ta tb);
      simpl; try lia; auto.
  - destruct (Z.ltb_spec da db), (Z.ltb_spec db dc), (Z.ltb_spec da dc),
      (Z.eqb_spec da db), (Z.eqb_spec db dc), (Z.eqb_spec da dc),
      (Z.ltb_spec ta tb), (Z.ltb_spec tb tc), (Z.ltb_spec ta tc);
      simpl; try lia; auto.
Qed.

Lemma ordering_strict_total_witness :
  let a := Datetime.ofFields 2013 1 6 20 43 0 0 in
  let b := Datetime.ofFields 2013 1 7 2 43 9 0 in
  let c := Datetime.ofFields 2013 1 17 2 43 9 0 in
  (Datetime.time a <> Time.default
   /\ Datetime.time b <> Time.default
   /\ Datetime.time c <> Time.default)
  /\ Datetime.ltb a b = true /\ Datetime.ltb b c = true /\ Datetime.ltb a c = true.
Proof.
  intros a b c.
  assert (Ha : Datetime.time a <> Time.default) by (vm_compute; discriminate).
  assert (Hb : Datetime.time b <> Time.default) by (vm_compute; discriminate).
  assert (Hc : Datetime.time c <> Time.default) by (vm_compute; discriminate).
  split; [auto |].
  destruct (ordering_strict_total a b c Ha Hb Hc) as (_ & _ & Htrans).
  assert (Hab : Datetime.ltb a b = true) by reflexivity.
  assert (Hbc : Datetime.ltb b c = true) by reflexivity.
  exact (conj Hab (conj Hbc (Htrans Hab Hbc))).
Defined.

(** ** Carry arithmetic of the time part *)

Ltac unfold_units :=
  change k_MILLISECONDS_PER_DAY with 86400000 in *;
  change k_MILLISECONDS_PER_HOUR with 3600000 in *;
  change k_MILLISECONDS_PER_MINUTE with 60000 in *;
  change k_MILLISECONDS_PER_SECOND with 1000 in *;
  change TimeUnitRatio.k_MS_PER_D_32 with 86400000 in *;
  change TimeUnitRatio.k_MS_PER_H_32 with 3600000 in *;
  change TimeUnitRatio.k_MS_PER_M_32 with 60000 in *;
  change TimeUnitRatio.k_MS_PER_S_32 with 1000 in *;
  change Date.k_MAX_SERIAL with 3652059 in *.

(** Truncating quotient and remainder, followed by the floor carry of the
    time part, amount to the floor quotient and remainder of the sum. *)
Lemma trunc_then_floor (t delta D : Z) :
  0 < D ->
  (t + Z.rem delta D) mod D = (t + delta) mod D
  /\ Z.quot delta D + (t + Z.rem delta D) / D = (t + delta) / D.
Proof.
  intros HD.
  pose proof (Z.quot_rem' delta D) as E.
  assert (E' : t + delta = t + Z.rem delta D + Z.quot delta D * D) by lia.
  rewrite E'. rewrite Z.mod_add, Z.div_add by lia. lia.
Qed.

Lemma sinceMidnight_range (x : Time.t) :
  Time.valid x -> 0 <= Time.sinceMidnight x < 86400000.
Proof.
  unfold Time.valid, Time.sinceMidnight. unfold_units. intros H.
  destruct (Z.eqb_spec (Time.d_milliseconds x) 86400000); lia.
Qed.

Lemma sinceMidnight_not_default (x : Time.t) :
  x <> Time.default -> Time.sinceMidnight x = Time.d_milliseconds x.
Proof.
  unfold Time.sinceMidnight. intros H.
  destruct (Z.eqb_spec (Time.d_milliseconds x) TimeUnitRatio.k_MS_PER_D_32) as [E | E];
    [| reflexivity].
  exfalso. apply H. apply Time_eq. exact E.
Qed.

Lemma not_default_range (x : Time.t) :
  Time.valid x -> x <> Time.default -> 0 <= Time.d_milliseconds x < 86400000.
Proof.
  intros Hv Hn. rewrite <- (sinceMidnight_not_default x Hn).
  now apply sinceMidnight_range.
Qed.

(** What [Time::addInterval] computes. *)
Lemma addInterval_floor (x : Time.t) (i : DatetimeInterval.t) :
  Time.addInterval x i
  = (Time.mk ((Time.sinceMidnight x + DatetimeInterval.totalMilliseconds i) mod 86400000),
     (Time.sinceMidnight x + DatetimeInterval.totalMilliseconds i) / 86400000).
Proof.
  unfold Time.addInterval, Time.addMilliseconds. unfold_units.
  destruct (trunc_then_floor (Time.sinceMidnight x)
              (DatetimeInterval.totalMilliseconds i) 86400000) as [Hm Hq]; [lia |].
  rewrite Hm, Hq. reflexivity.
Qed.

(** What the scalar adders compute, when the day count fits an [int]. *)
Lemma addTotalMsec_floor (dt : Datetime.t) (totalMsec : Z) :
  Time.valid (Datetime.d_time dt) ->
  - 2 ^ 31 * 86400000 <= totalMsec < (2 ^ 31 - 1) * 86400000 ->
  Datetime.normMsec totalMsec = Z.rem totalMsec 86400000
  /\ Datetime.wholeDays totalMsec = Z.quot totalMsec 86400000
  /\ Datetime.numDays dt totalMsec
     = (Time.sinceMidnight (Datetime.d_time dt) + totalMsec) / 86400000
  /\ Datetime.addTotalMsec dt totalMsec
     = Datetime.mk
         (Date.addDays (Datetime.d_date dt)
            ((Time.sinceMidnight (Datetime.d_time dt) + totalMsec) / 86400000))
         (Time.mk ((Time.sinceMidnight (Datetime.d_time dt) + totalMsec) mod 86400000)).
Proof.
  intros Hv Hr.
  pose proof (sinceMidnight_range _ Hv) as Ht.
  assert (Hn : Datetime.normMsec totalMsec = Z.rem totalMsec 86400000).
  { unfold Datetime.normMsec. unfold_units. apply static_cast_int_id.
    unfold inInt. Z.to_euclidean_division_equations. lia. }
  assert (Hw : Datetime.wholeDays totalMsec = Z.quot totalMsec 86400000).
  { unfold Datetime.wholeDays. unfold_units. apply static_cast_int_id.
    unfold inInt. Z.to_euclidean_division_equations. lia. }
  destruct (trunc_then_floor (Time.sinceMidnight (Datetime.d_time dt))
              totalMsec 86400000) as [Hm Hq]; [lia |].
  assert (Hd : Datetime.numDays dt totalMsec
               = (Time.sinceMidnight (Datetime.d_time dt) + totalMsec) / 86400000).
  { unfold Datetime.numDays, addInt, Time.addMilliseconds. cbn [snd].
    rewrite Hn, Hw. unfold_units. rewrite Hq. apply static_cast_int_id.
    unfold inInt. Z.to_euclidean_division_equations. lia. }
  repeat split; auto.
  unfold Datetime.addTotalMsec. rewrite Hd.
  unfold Time.addMilliseconds. cbn [fst]. rewrite Hn. unfold_units.
  rewrite Hm. reflexivity.
Qed.

(** ** The decomposition of the scalar adders *)




(** ** Scalar adders and the interval path *)

Lemma max_value :
  Datetime.ofFields 9999 12 31 23 59 59 999
  = Datetime.mk (Date.mk 3652059) (Time.mk 86399999).
Proof. reflexivity. Qed.

Lemma min_value :
  Datetime.ofFields 1 1 1 0 0 0 0 = Datetime.mk (Date.mk 1) (Time.mk 0).
Proof. reflexivity. Qed.

(** What the two range assertions say, in milliseconds. *)
Lemma inRange_pre_bounds (dt : Datetime.t) (delta : DatetimeInterval.t) :
  Time.valid (Datetime.d_time dt) ->
  Datetime.inRange_pre dt delta = true ->
  let s := Date.d_serialDate (Datetime.d_date dt) in
  let t := Time.sinceMidnight (Datetime.d_time dt) in
  (1 - s) * 86400000 - t
  <= DatetimeInterval.totalMilliseconds delta
  <= (3652059 - s) * 86400000 + 86399999 - t.
Proof.
  intros Hv H. cbv zeta.
  unfold Datetime.inRange_pre in H. rewrite max_value, min_value in H.
  unfold Datetime.sub, DatetimeInterval.leb, DatetimeInterval.geb,
    DatetimeInterval.add, Time.sub, Date.sub, DatetimeInterval.ofFields in H.
  cbn [Datetime.d_date Datetime.d_time Date.d_serialDate Time.d_milliseconds
       DatetimeInterval.totalMilliseconds] in H.
  unfold Time.sinceMidnight. unfold Time.valid in Hv. unfold_units.
  bool_to_prop.
  destruct (Z.eqb_spec (Time.d_milliseconds (Datetime.d_time dt)) 86400000) as [E | E].
  - rewrite E in *. change (86400000 mod 86400000) with 0 in *.
    change (86399999 mod 86400000) with 86399999 in *.
    change (0 mod 86400000) with 0 in *. lia.
  - rewrite (Z.mod_small (Time.d_milliseconds (Datetime.d_time dt))) in * by lia.
    change (86399999 mod 86400000) with 86399999 in *.
    change (0 mod 86400000) with 0 in *. lia.
Qed.

Lemma I1_valid (dt : Datetime.t) :
  Datetime.I1 dt -> Date.valid (Datetime.d_date dt) /\ Time.valid (Datetime.d_time dt).
Proof.
  intros [(_ & Hd & Ht) | (Ht & Hd)]; [auto |].
  rewrite Ht, Hd. split; split; vm_compute; discriminate.
Qed.

(** A scalar adder and [operator+=] agree on a total that the range
    assertions of the interval path accept. *)
Lemma addTotalMsec_addAssign (dt : Datetime.t) (totalMsec : Z) :
  Datetime.I1 dt ->
  Datetime.inRange_pre dt (DatetimeInterval.mk totalMsec) = true ->
  Datetime.addTotalMsec dt totalMsec
  = Datetime.addAssign dt (DatetimeInterval.mk totalMsec)
  /\ inInt64 totalMsec.
Proof.
  intros HI Hr. destruct (I1_valid dt HI) as [Hd Ht].
  pose proof (inRange_pre_bounds dt _ Ht Hr) as Hb. cbv zeta in Hb.
  cbn [DatetimeInterval.totalMilliseconds] in Hb.
  pose proof (sinceMidnight_range _ Ht) as Hs.
  unfold Date.valid in Hd. unfold_units.
  split; [| unfold inInt64; lia].
  destruct (addTotalMsec_floor dt totalMsec Ht) as (_ & _ & _ & ->); [lia |].
  unfold Datetime.addAssign. rewrite addInterval_floor. reflexivity.
Qed.

Lemma addTime_addAssign (dt : Datetime.t) (h m s ms : Z) :
  Datetime.addTime dt h m s ms
  = Datetime.addAssign dt (DatetimeInterval.ofFields 0 h m s ms).
Proof. reflexivity. Qed.

Lemma addDays_not_default (dt : Datetime.t) (days : Z) :
  Datetime.d_time dt <> Time.default ->
  Datetime.addDays dt days
  = Datetime.mk (Date.addDays (Datetime.d_date dt) days) (Datetime.d_time dt).
Proof.
  intros Hn. unfold Datetime.addDays, Datetime.setTimeToZeroIfDefault.
  destruct (Time.eqb Datetime.s_defaultTime (Datetime.d_time dt)) eqn:E.
  - apply Time_eqb_eq in E. exfalso. apply Hn. now rewrite <- E.
  - reflexivity.
Qed.

(** Adding whole days through a scalar adder moves the date only. *)
Lemma addTotalMsec_whole_days (dt : Datetime.t) (days : Z) :
  Datetime.I1 dt ->
  Datetime.d_time dt <> Time.default ->
  Datetime.addDays_pre dt days = true ->
  Datetime.addTotalMsec dt (days * 86400000) = Datetime.addDays dt days.
Proof.
  intros HI Hn Hp. destruct (I1_valid dt HI) as [Hd Ht].
  pose proof (not_default_range _ Ht Hn) as Hs.
  rewrite addDays_not_default by assumption.
  unfold Datetime.addDays_pre, Date.addDaysIfValid in Hp.
  destruct (Date.isValidSerial (Date.d_serialDate (Datetime.d_date dt) + days)) eqn:E;
    [| discriminate].
  unfold Date.isValidSerial in E. unfold Date.valid in Hd. unfold_units. bool_to_prop.
  destruct (addTotalMsec_floor dt (days * 86400000) Ht) as (_ & _ & _ & ->); [lia |].
  rewrite sinceMidnight_not_default by assumption.
  rewrite Z.div_add, Z.mod_add by lia.
  rewrite Z.div_small, Z.mod_small by lia.
  destruct dt as [d [t]]; reflexivity.
Qed.

Lemma scalar_adder_via_interval (dt : Datetime.t) (n unit : Z) :
  Datetime.I1 dt ->
  Datetime.inRange_pre dt (DatetimeInterval.mk (n * unit)) = true ->
  Datetime.addTotalMsec dt (wrapInt64 (n * unit))
  = Datetime.addAssign dt (DatetimeInterval.mk (n * unit)).
Proof.
  intros HI Hr.
  destruct (addTotalMsec_addAssign dt (n * unit) HI Hr) as [E Hb].
  rewrite wrapInt64_id by assumption. exact E.
Qed.

Lemma ofFields_hours n : DatetimeInterval.ofFields 0 n 0 0 0
                         = DatetimeInterval.mk (n * k_MILLISECONDS_PER_HOUR).
Proof. unfold DatetimeInterval.ofFields. unfold_units. f_equal. lia. Qed.

Lemma ofFields_minutes n : DatetimeInterval.ofFields 0 0 n 0 0
                           = DatetimeInterval.mk (n * k_MILLISECONDS_PER_MINUTE).
Proof. unfold DatetimeInterval.ofFields. unfold_units. f_equal. lia. Qed.

Lemma ofFields_seconds n : DatetimeInterval.ofFields 0 0 0 n 0
                           = DatetimeInterval.mk (n * k_MILLISECONDS_PER_SECOND).
Proof. unfold DatetimeInterval.ofFields. unfold_units. f_equal. lia. Qed.

Lemma ofFields_milliseconds n : DatetimeInterval.ofFields 0 0 0 0 n
                                = DatetimeInterval.mk n.
Proof. unfold DatetimeInterval.ofFields. unfold_units. f_equal. Qed.

(** C2.  On a value that is not the sentinel, and for amounts that the
    range assertions of the interval path accept, [addHours],
    [addMinutes], [addSeconds] and [addMilliseconds] yield the value that
    [addTime] and [operator+=] yield for the equivalent interval; and
    where the date can advance, adding 24 hours is adding one day and
    adding 240 hours is adding ten days. *)
Theorem scalar_adders_agree_with_interval
    (dt : Datetime.t) (hours minutes seconds milliseconds : Z) :
  Datetime.I1 dt ->
  Datetime.d_time dt <> Time.default ->
  Datetime.inRange_pre dt (DatetimeInterval.ofFields 0 hours 0 0 0) = true ->
  Datetime.inRange_pre dt (DatetimeInterval.ofFields 0 0 minutes 0 0) = true ->
  Datetime.inRange_pre dt (DatetimeInterval.ofFields 0 0 0 seconds 0) = true ->
  Datetime.inRange_pre dt (DatetimeInterval.ofFields 0 0 0 0 milliseconds) = true ->
  (Datetime.addHours dt hours = Datetime.addTime dt hours 0 0 0
   /\ Datetime.addHours dt hours
      = Datetime.addAssign dt (DatetimeInterval.ofFields 0 hours 0 0 0))
  /\ (Datetime.addMinutes dt minutes = Datetime.addTime dt 0 minutes 0 0
      /\ Datetime.addMinutes dt minutes
         = Datetime.addAssign dt (DatetimeInterval.ofFields 0 0 minutes 0 0))
  /\ (Datetime.addSeconds dt seconds = Datetime.addTime dt 0 0 seconds 0
      /\ Datetime.addSeconds dt seconds
         = Datetime.addAssign dt (DatetimeInterval.ofFields 0 0 0 seconds 0))
  /\ (Datetime.addMilliseconds dt milliseconds = Datetime.addTime dt 0 0 0 milliseconds
      /\ Datetime.addMilliseconds dt milliseconds
         = Datetime.addAssign dt (DatetimeInterval.ofFields 0 0 0 0 milliseconds))
  /\ (Datetime.addDays_pre dt 1 = true ->
      Datetime.addHours dt 24 = Datetime.addDays dt 1)
  /\ (Datetime.addDays_pre dt 10 = true ->
      Datetime.addHours dt 240 = Datetime.addDays dt 10).
Proof.
  intros HI Hn Hh Hm Hs Hms.
  rewrite !addTime_addAssign.
  rewrite (ofFields_milliseconds milliseconds) in Hms |- *.
  rewrite (ofFields_hours hours) in Hh |- *.
  rewrite (ofFields_minutes minutes) in Hm |- *.
  rewrite (ofFields_seconds seconds) in Hs |- *.
  unfold Datetime.addHours, Datetime.addMinutes, Datetime.addSeconds,
    Datetime.addMilliseconds. cbv zeta.
  rewrite (scalar_adder_via_interval dt hours k_MILLISECONDS_PER_HOUR HI Hh).
  rewrite (scalar_adder_via_interval dt minutes k_MILLISECONDS_PER_MINUTE HI Hm).
  rewrite (scalar_adder_via_interval dt seconds k_MILLISECONDS_PER_SECOND HI Hs).
  destruct (addTotalMsec_addAssign dt milliseconds HI Hms) as [-> _].
  repeat (split; [split; reflexivity |]).
  split; intros Hp.
  - change (wrapInt64 (24 * k_MILLISECONDS_PER_HOUR)) with (1 * 86400000).
    now apply addTotalMsec_whole_days.
  - change (wrapInt64 (240 * k_MILLISECONDS_PER_HOUR)) with (10 * 86400000).
    now apply addTotalMsec_whole_days.
Qed.

Lemma scalar_adders_agree_with_interval_witness :
  let dt := Datetime.ofFields 2013 1 7 2 43 9 0 in
  (Datetime.I1 dt /\ Datetime.d_time dt <> Time.default
   /\ Datetime.inRange_pre dt (DatetimeInterval.ofFields 0 240 0 0 0) = true
   /\ Datetime.addDays_pre dt 10 = true)
  /\ Datetime.addHours dt 240 = Datetime.addTime dt 240 0 0 0
  /\ Datetime.addHours dt 240 = Datetime.ofFields 2013 1 17 2 43 9 0
  /\ Datetime.addHours dt 240 = Datetime.addDays dt 10.
Proof.
  intros dt.
  assert (Hn : Datetime.d_time dt <> Time.default) by (vm_compute; discriminate).
  assert (HI : Datetime.I1 dt).
  { left. split; [exact Hn |]. split; split; vm_compute; discriminate. }
  assert (Hh : Datetime.inRange_pre dt (DatetimeInterval.ofFields 0 240 0 0 0) = true)
    by reflexivity.
  assert (Hm : Datetime.inRange_pre dt (DatetimeInterval.ofFields 0 0 (-5) 0 0) = true)
    by reflexivity.
  assert (Hs : Datetime.inRange_pre dt (DatetimeInterval.ofFields 0 0 0 9 0) = true)
    by reflexivity.
  assert (Hms : Datetime.inRange_pre dt (DatetimeInterval.ofFields 0 0 0 0 (-1)) = true)
    by reflexivity.
  assert (Hp : Datetime.addDays_pre dt 10 = true) by reflexivity.
  split; [auto |].
  destruct (scalar_adders_agree_with_interval dt 240 (-5) 9 (-1) HI Hn Hh Hm Hs Hms)
    as ((E1 & _) & _ & _ & _ & _ & E10).
  split; [exact E1 | split; [reflexivity | exact (E10 Hp)]].
Defined.

(** ** Subtraction and addition *)

Lemma sub_total (a b : Datetime.t) :
  Time.valid (Datetime.d_time a) -> Datetime.d_time a <> Time.default ->
  Time.valid (Datetime.d_time b) -> Datetime.d_time b <> Time.default ->
  DatetimeInterval.totalMilliseconds (Datetime.sub a b)
  = (Date.d_serialDate (Datetime.d_date a) - Date.d_serialDate (Datetime.d_date b))
    * 86400000
    + Time.d_milliseconds (Datetime.d_time a)
    - Time.d_milliseconds (Datetime.d_time b).
Proof.
  intros Hva Hna Hvb Hnb.
  pose proof (not_default_range _ Hva Hna). pose proof (not_default_range _ Hvb Hnb).
  unfold Datetime.sub, DatetimeInterval.add, Time.sub, Date.sub,
    DatetimeInterval.ofFields.
  cbn [DatetimeInterval.totalMilliseconds]. unfold_units.
  rewrite !Z.mod_small by lia. lia.
Qed.

Lemma addAssign_sub (a b : Datetime.t) :
  Time.valid (Datetime.d_time a) -> Datetime.d_time a <> Time.default ->
  Time.valid (Datetime.d_time b) -> Datetime.d_time b <> Time.default ->
  Datetime.addAssign b (Datetime.sub a b) = a.
Proof.
  intros Hva Hna Hvb Hnb.
  pose proof (not_default_range _ Hva Hna). pose proof (not_default_range _ Hvb Hnb).
  unfold Datetime.addAssign. rewrite addInterval_floor.
  rewrite sub_total by assumption.
  rewrite sinceMidnight_not_default by assumption.
  replace (Time.d_milliseconds (Datetime.d_time b)
           + ((Date.d_serialDate (Datetime.d_date a)
               - Date.d_serialDate (Datetime.d_date b)) * 86400000
              + Time.d_milliseconds (Datetime.d_time a)
              - Time.d_milliseconds (Datetime.d_time b)))
    with (Time.d_milliseconds (Datetime.d_time a)
          + (Date.d_serialDate (Datetime.d_date a)
             - Date.d_serialDate (Datetime.d_date b)) * 86400000) by lia.
  rewrite Z.div_add, Z.mod_add by lia.
  rewrite Z.div_small, Z.mod_small by lia.
  destruct a as [[sa] [ta]], b as [[sb] [tb]]. unfold Date.addDays. simpl.
  repeat f_equal. lia.
Qed.

(** C4.  For two values that are not the sentinel, subtraction and
    addition are inverse: [(a - b) + b == a] and [b + (a - b) == a], where
    [a - b] is the date difference in whole days plus the signed
    difference of the times of day. *)
Theorem sub_then_add (a b : Datetime.t) :
  Datetime.I1 a -> Datetime.d_time a <> Time.default ->
  Datetime.I1 b -> Datetime.d_time b <> Time.default ->
  Datetime.sub a b
  = DatetimeInterval.add
      (DatetimeInterval.ofFields
         (Date.sub (Datetime.d_date a) (Datetime.d_date b)) 0 0 0 0)
      (Time.sub (Datetime.d_time a) (Datetime.d_time b))
  /\ Datetime.plus_l (Datetime.sub a b) b = a
  /\ Datetime.plus b (Datetime.sub a b) = a
  /\ Datetime.eqb (Datetime.plus_l (Datetime.sub a b) b) a = true
  /\ Datetime.eqb (Datetime.plus b (Datetime.sub a b)) a = true.
Proof.
  intros HIa Hna HIb Hnb.
  destruct (I1_valid a HIa) as [_ Hva]. destruct (I1_valid b HIb) as [_ Hvb].
  pose proof (addAssign_sub a b Hva Hna Hvb Hnb) as E.
  unfold Datetime.plus_l, Datetime.plus. rewrite E.
  repeat split; apply Datetime_eqb_eq; reflexivity.
Qed.

Lemma sub_then_add_witness :
  let a := Datetime.ofFields 2013 1 7 2 43 9 0 in
  let b := Datetime.ofFields 2013 1 6 20 43 0 0 in
  (Datetime.I1 a /\ Datetime.d_time a <> Time.default
   /\ Datetime.I1 b /\ Datetime.d_time b <> Time.default)
  /\ Datetime.sub a b = DatetimeInterval.ofFields 0 6 0 9 0
  /\ Datetime.plus_l (Datetime.sub a b) b = a
  /\ Datetime.plus b (Datetime.sub a b) = a.
Proof.
  intros a b.
  assert (Hna : Datetime.d_time a <> Time.default) by (vm_compute; discriminate).
  assert (Hnb : Datetime.d_time b <> Time.default) by (vm_compute; discriminate).
  assert (HIa : Datetime.I1 a).
  { left. split; [exact Hna |]. split; split; vm_compute; discriminate. }
  assert (HIb : Datetime.I1 b).
  { left. split; [exact Hnb |]. split; split; vm_compute; discriminate. }
  split; [auto |].
  destruct (sub_then_add a b HIa Hna HIb Hnb) as (_ & E1 & E2 & _).
  split; [reflexivity | exact (conj E1 E2)].
Defined.

(** ** The sentinel and the setters *)

(** C5, counterexample.  On the default value [setTime(Time())] is within
    the contract and leaves 24:00:00.000 in place, and [setMinute(5)]
    yields 00:05:00.000: neither yields 00:00:00.000. *)
Lemma sentinel_setter_counterexample :
  Datetime.setTime_pre Datetime.default Time.default = true
  /\ Datetime.d_time (Datetime.setTime Datetime.default Time.default) = Time.default
  /\ Datetime.d_time (Datetime.setTime Datetime.default Time.default)
     <> Time.ofFields 0 0 0 0
  /\ Datetime.setMinute_pre 5 = true
  /\ Datetime.d_time (Datetime.setMinute Datetime.default 5) = Time.ofFields 0 5 0 0
  /\ Datetime.d_time (Datetime.setMinute Datetime.default 5) <> Time.ofFields 0 0 0 0.
Proof.
  repeat split; try reflexivity; vm_compute; discriminate.
Qed.

Lemma setTimeToZeroIfDefault_default :
  Datetime.setTimeToZeroIfDefault Datetime.default
  = Datetime.mk Date.default (Time.ofFields 0 0 0 0).
Proof. reflexivity. Qed.

Lemma setTimeToZeroIfDefault_other (dt : Datetime.t) :
  dt <> Datetime.default -> Datetime.setTimeToZeroIfDefault dt = dt.
Proof.
  intros Hn. unfold Datetime.setTimeToZeroIfDefault.
  destruct (Time.eqb Datetime.s_defaultTime (Datetime.d_time dt)) eqn:Et;
    [| reflexivity].
  destruct (Date.eqb Datetime.s_defaultDate (Datetime.d_date dt)) eqn:Ed;
    [| reflexivity].
  apply Time_eqb_eq in Et. apply Date_eqb_eq in Ed.
  exfalso. apply Hn. destruct dt as [d t]. simpl in *. subst. reflexivity.
Qed.

(** C5, as amended.  Starting from the default value: the date setters
    [setDate], [setYearDay] and [setYearMonthDay] yield the time of day
    00:00:00.000; [setHour] with an hour other than 24, [setMinute],
    [setSecond] and [setMillisecond] yield 00:00:00.000 with the named
    field replaced, which is never 24:00:00.000; [setTime] and
    [setDatetime] store the time they are given, whatever it is, and so
    24:00:00.000 when given it.  The normalisation
    replaces the time of the sentinel by 00:00:00.000, is the identity on
    every other value, and in the date setters runs before the date is
    replaced. *)
Theorem sentinel_setters
    (dt : Datetime.t) (date : Date.t) (time : Time.t)
    (year month day dayOfYear hour minute second millisecond : Z)
    (givenYear givenMonth givenDay : Z)
    (givenHour givenMinute givenSecond givenMillisecond : Z) :
  dt <> Datetime.default ->
  hour <> 24 ->
  Datetime.setMinute_pre minute = true ->
  Datetime.setSecond_pre second = true ->
  Datetime.setMillisecond_pre millisecond = true ->
  (Datetime.setDate Datetime.default date = Datetime.mk date (Time.ofFields 0 0 0 0)
   /\ Datetime.setYearDay Datetime.default year dayOfYear
      = Datetime.mk (Date.ofYearDay year dayOfYear) (Time.ofFields 0 0 0 0)
   /\ Datetime.setYearMonthDay Datetime.default year month day
      = Datetime.mk (Date.ofYearMonthDay year month day) (Time.ofFields 0 0 0 0))
  /\ (Datetime.d_time (Datetime.setHour Datetime.default hour)
      = Time.ofFields hour 0 0 0
      /\ Datetime.d_time (Datetime.setMinute Datetime.default minute)
         = Time.ofFields 0 minute 0 0
      /\ Datetime.d_time (Datetime.setSecond Datetime.default second)
         = Time.ofFields 0 0 second 0
      /\ Datetime.d_time (Datetime.setMillisecond Datetime.default millisecond)
         = Time.ofFields 0 0 0 millisecond)
  /\ (Datetime.d_time (Datetime.setHour Datetime.default hour) <> Time.default
      /\ Datetime.d_time (Datetime.setMinute Datetime.default minute) <> Time.default
      /\ Datetime.d_time (Datetime.setSecond Datetime.default second) <> Time.default
      /\ Datetime.d_time (Datetime.setMillisecond Datetime.default millisecond)
         <> Time.default)
  /\ (Datetime.setTime Datetime.default time = Datetime.mk Date.default time
      /\ Datetime.setTimeFields Datetime.default
           givenHour givenMinute givenSecond givenMillisecond
         = Datetime.mk Date.default
             (Time.ofFields givenHour givenMinute givenSecond givenMillisecond)
      /\ Datetime.setDatetime Datetime.default givenYear givenMonth givenDay
           givenHour givenMinute givenSecond givenMillisecond
         = Datetime.mk (Date.ofYearMonthDay givenYear givenMonth givenDay)
             (Time.ofFields givenHour givenMinute givenSecond givenMillisecond)
      /\ Datetime.setTime Datetime.default Time.default = Datetime.default
      /\ Datetime.setTimeFields Datetime.default 24 0 0 0 = Datetime.default
      /\ Datetime.setDatetime Datetime.default 1 1 1 24 0 0 0 = Datetime.default)
  /\ (Datetime.setTimeToZeroIfDefault Datetime.default
      = Datetime.mk Date.default (Time.ofFields 0 0 0 0)
      /\ Datetime.setTimeToZeroIfDefault dt = dt
      /\ Datetime.setDate dt date = Datetime.mk date (Datetime.d_time dt)).
Proof.
  intros Hdt Hh24 Hm Hs Hms.
  unfold Datetime.setMinute_pre, Datetime.setSecond_pre,
    Datetime.setMillisecond_pre in *. bool_to_prop.
  assert (Eh : Datetime.d_time (Datetime.setHour Datetime.default hour)
               = Time.ofFields hour 0 0 0).
  { unfold Datetime.setHour, Time.setHour. cbn [Datetime.d_time].
    destruct (Z.eqb_spec hour 24); [contradiction |].
    apply Time_eq. unfold Time.ofFields. cbn. lia. }
  assert (Em : Datetime.d_time (Datetime.setMinute Datetime.default minute)
               = Time.ofFields 0 minute 0 0).
  { apply Time_eq. unfold Time.ofFields. cbn. lia. }
  assert (Es : Datetime.d_time (Datetime.setSecond Datetime.default second)
               = Time.ofFields 0 0 second 0).
  { apply Time_eq. unfold Time.ofFields. cbn. lia. }
  assert (Ems : Datetime.d_time (Datetime.setMillisecond Datetime.default millisecond)
                = Time.ofFields 0 0 0 millisecond).
  { apply Time_eq. unfold Time.ofFields. cbn. lia. }
  split; [repeat split |].
  split; [auto |].
  split.
  { rewrite Eh, Em, Es, Ems. unfold Time.ofFields, Time.default. unfold_units.
    repeat split; intros E; injection E; lia. }
  split; [repeat split |].
  split; [reflexivity |].
  rewrite (setTimeToZeroIfDefault_other dt Hdt).
  split; [reflexivity |].
  unfold Datetime.setDate. rewrite (setTimeToZeroIfDefault_other dt Hdt). reflexivity.
Qed.

Lemma sentinel_setters_witness :
  let dt := Datetime.ofFields 2013 1 6 20 43 0 0 in
  (dt <> Datetime.default /\ 20 <> 24
   /\ Datetime.setMinute_pre 43 = true
   /\ Datetime.setSecond_pre 9 = true
   /\ Datetime.setMillisecond_pre 7 = true)
  /\ Datetime.setDate Datetime.default (Date.ofYearMonthDay 2013 1 6)
     = Datetime.ofFields 2013 1 6 0 0 0 0
  /\ Datetime.d_time (Datetime.setHour Datetime.default 20) = Time.ofFields 20 0 0 0
  /\ Datetime.setTimeToZeroIfDefault dt = dt
  /\ Datetime.setDatetime Datetime.default 1 1 1 24 0 0 0 = Datetime.default
  /\ Datetime.setTimeFields Datetime.default 24 0 0 0 = Datetime.default.
Proof.
  intros dt.
  assert (Hdt : dt <> Datetime.default) by (vm_compute; discriminate).
  assert (Hh : 20 <> 24) by discriminate.
  assert (Hm : Datetime.setMinute_pre 43 = true) by reflexivity.
  assert (Hs : Datetime.setSecond_pre 9 = true) by reflexivity.
  assert (Hms : Datetime.setMillisecond_pre 7 = true) by reflexivity.
  split; [auto |].
  destruct (sentinel_setters dt (Date.ofYearMonthDay 2013 1 6) Time.default
              2013 1 6 6 20 43 9 7 1 1 1 24 0 0 0 Hdt Hh Hm Hs Hms)
    as ((E1 & _) & (E2 & _) & _ & (_ & E5 & E4 & _) & (_ & E3 & _)).
  exact (conj E1 (conj E2 (conj E3 (conj E4 E5)))).
Defined.

(** ** Externalization *)

Lemma zOfByte_byteOfZ (z : Z) : Bdex.zOfByte (Bdex.byteOfZ z) = z mod 256.
Proof.
  unfold Bdex.zOfByte, Bdex.byteOfZ.
  pose proof (Z.mod_pos_bound z 256 eq_refl) as Hb.
  destruct (Byte.of_N (Z.to_N (z mod 256))) as [b |] eqn:E.
  - apply Byte.to_of_N in E. rewrite E. apply Z2N.id. lia.
  - apply Byte.of_N_None_iff in E. lia.
Qed.

Lemma getUint_putInt (n : nat) : forall (z acc : Z) (rest : list byte),
  Bdex.getUint n acc (Bdex.putInt n z ++ rest)
  = Some (acc * 256 ^ Z.of_nat n + z mod 256 ^ Z.of_nat n, rest).
Proof.
  induction n as [| n IH]; intros z acc rest.
  - simpl. rewrite Z.mod_1_r. f_equal. f_equal. lia.
  - cbn [Bdex.putInt Bdex.getUint app]. rewrite IH. rewrite zOfByte_byteOfZ.
    f_equal. f_equal.
    rewrite Nat2Z.inj_succ, Z.pow_succ_r by lia.
    assert (Hp : 0 < 256 ^ Z.of_nat n) by (apply Z.pow_pos_nonneg; lia).
    rewrite (Z.mul_comm 256 (256 ^ Z.of_nat n)).
    rewrite (Z.rem_mul_r z (256 ^ Z.of_nat n) 256) by lia.
    lia.
Qed.

Lemma getDate3_putDate3 (d : Date.t) (rest : list byte) :
  Date.valid d -> Bdex.getDate3 (Bdex.putDate3 d ++ rest) = Some (d, rest).
Proof.
  unfold Date.valid, Bdex.getDate3, Bdex.putDate3. unfold_units. intros H.
  rewrite getUint_putInt.
  change (256 ^ Z.of_nat 3) with 16777216.
  rewrite Z.mod_small by lia. cbn [Z.mul Z.add].
  unfold Date.isValidSerial. unfold_units.
  destruct (Z.leb_spec 1 (Date.d_serialDate d)); [| lia].
  destruct (Z.leb_spec (Date.d_serialDate d) 3652059); [| lia].
  destruct d; reflexivity.
Qed.

Lemma getTime4_putTime4 (x : Time.t) (rest : list byte) :
  Time.valid x -> Bdex.getTime4 (Bdex.putTime4 x ++ rest) = Some (x, rest).
Proof.
  unfold Time.valid, Bdex.getTime4, Bdex.putTime4. unfold_units. intros H.
  rewrite getUint_putInt.
  change (256 ^ Z.of_nat 4) with 4294967296.
  rewrite Z.mod_small by lia. cbn [Z.mul Z.add].
  destruct (Z.leb_spec 0 (Time.d_milliseconds x)); [| lia].
  destruct (Z.leb_spec (Time.d_milliseconds x) 86400000); [| lia].
  destruct x; reflexivity.
Qed.

(** The concrete sub-streams as an instance of the collaborators'
    contract. *)
#[export] Instance bigEndianSubStreams : Bdex.SubStreams := {|
  Bdex.putDate := Bdex.putDate3;
  Bdex.getDate := Bdex.getDate3;
  Bdex.putTime := Bdex.putTime4;
  Bdex.getTime := Bdex.getTime4;
  Bdex.getDate_putDate := getDate3_putDate3;
  Bdex.getTime_putTime := getTime4_putTime4
|}.

Section StreamProperties.
Context {sub : Bdex.SubStreams}.

Lemma bdexStreamOut_bytes (dt : Datetime.t) :
  Datetime.bdexStreamOut Bdex.openOut 1 dt
  = Bdex.mkOut (Bdex.putDate (Datetime.d_date dt) ++ Bdex.putTime (Datetime.d_time dt))
      true.
Proof. reflexivity. Qed.

Lemma bdexStreamIn_well_formed (d : Date.t) (x : Time.t) (rest : list byte)
    (target : Datetime.t) :
  Date.valid d -> Time.valid x ->
  Datetime.bdexStreamIn (Bdex.openIn (Bdex.putDate d ++ Bdex.putTime x ++ rest)) 1 target
  = (Bdex.mkIn rest true, Datetime.mk d x).
Proof.
  intros Hd Hx.
  unfold Datetime.bdexStreamIn, Bdex.Date_bdexStreamIn, Bdex.Time_bdexStreamIn,
    Bdex.openIn.
  cbn [Bdex.in_valid Bdex.in_bytes].
  rewrite Bdex.getDate_putDate by assumption.
  cbn [Bdex.in_valid Bdex.in_bytes].
  rewrite Bdex.getTime_putTime by assumption.
  reflexivity.
Qed.

(** C9.  For a value that satisfies the invariant, the sentinel included,
    [bdexStreamOut] at version 1 writes the date sub-stream immediately
    followed by the time sub-stream and nothing else, and [bdexStreamIn]
    at version 1 reads those bytes back into any object as the original
    value, leaving the stream valid and the bytes that follow unread. *)
Theorem bdex_round_trip (dt target : Datetime.t) (rest : list byte) :
  Datetime.I1 dt ->
  let written := Datetime.bdexStreamOut Bdex.openOut 1 dt in
  Bdex.out_valid written = true
  /\ Bdex.out_bytes written
     = Bdex.putDate (Datetime.d_date dt) ++ Bdex.putTime (Datetime.d_time dt)
  /\ Datetime.bdexStreamIn (Bdex.openIn (Bdex.out_bytes written ++ rest)) 1 target
     = (Bdex.mkIn rest true, dt).
Proof.
  intros HI. destruct (I1_valid dt HI) as [Hd Hx].
  cbv zeta. rewrite bdexStreamOut_bytes. cbn [Bdex.out_valid Bdex.out_bytes].
  split; [reflexivity | split; [reflexivity |]].
  rewrite <- app_assoc.
  rewrite (bdexStreamIn_well_formed _ _ rest target Hd Hx).
  destruct dt; reflexivity.
Qed.

(** C10.  When a stream that is valid on entry is no longer valid after
    the date and the time have been read into the temporaries, version-1
    [bdexStreamIn] returns the stream invalid and leaves the object equal
    to its prior value. *)
Theorem bdexStreamIn_failure_keeps_value (stream : Bdex.InStream) (dt : Datetime.t) :
  Bdex.in_valid stream = true ->
  Bdex.in_valid
    (fst (Bdex.Time_bdexStreamIn
            (fst (Bdex.Date_bdexStreamIn stream Date.default)) Time.default))
  = false ->
  Bdex.in_valid (fst (Datetime.bdexStreamIn stream 1 dt)) = false
  /\ snd (Datetime.bdexStreamIn stream 1 dt) = dt.
Proof.
  intros Hv Hfail. unfold Datetime.bdexStreamIn. rewrite Hv.
  destruct (Bdex.Date_bdexStreamIn stream Date.default) as [stream1 dateTmp].
  cbn [fst] in Hfail.
  destruct (Bdex.Time_bdexStreamIn stream1 Time.default) as [stream2 timeTmp].
  cbn [fst] in Hfail. rewrite Hfail. split; reflexivity.
Qed.

(** The object changes only when the stream is still valid at the end. *)
Lemma bdexStreamIn_changes_only_on_success (stream : Bdex.InStream) (version : Z)
    (dt : Datetime.t) :
  Bdex.in_valid (fst (Datetime.bdexStreamIn stream version dt)) = false ->
  snd (Datetime.bdexStreamIn stream version dt) = dt.
Proof.
  unfold Datetime.bdexStreamIn.
  destruct (Bdex.in_valid stream) eqn:Hv; [| reflexivity].
  destruct version as [| [p | p |] |]; try reflexivity.
  destruct (Bdex.Date_bdexStreamIn stream Date.default) as [stream1 dateTmp].
  destruct (Bdex.Time_bdexStreamIn stream1 Time.default) as [stream2 timeTmp].
  destruct (Bdex.in_valid stream2) eqn:Hv2; cbn [fst snd]; [| reflexivity].
  intros H. rewrite Hv2 in H. discriminate.
Qed.

(** A well-formed stream that pairs a date other than 0001-01-01 with the
    time 24:00:00.000 is read and committed. *)
Lemma bdexStreamIn_commits_unchecked (d : Date.t) (target : Datetime.t) :
  Date.valid d -> d <> Date.default ->
  let r := Datetime.bdexStreamIn
             (Bdex.openIn (Bdex.putDate d ++ Bdex.putTime Time.default)) 1 target in
  Bdex.in_valid (fst r) = true
  /\ snd r = Datetime.mk d Time.default
  /\ ~ Datetime.I1 (snd r).
Proof.
  intros Hd Hn. cbv zeta.
  rewrite <- (app_nil_r (Bdex.putTime Time.default)).
  rewrite (bdexStreamIn_well_formed d Time.default [] target Hd)
    by (split; vm_compute; discriminate).
  cbn [fst snd Bdex.in_valid]. split; [reflexivity | split; [reflexivity |]].
  intros [(Ht & _) | (_ & Hdd)]; cbn [Datetime.d_time Datetime.d_date] in *;
    [apply Ht; reflexivity | apply Hn; exact Hdd].
Qed.

End StreamProperties.

Lemma bdex_round_trip_witness :
  (Datetime.I1 Datetime.default
   /\ Datetime.I1 (Datetime.ofFields 2013 1 6 20 43 0 0))
  /\ Datetime.bdexStreamIn
       (Bdex.openIn
          (Bdex.out_bytes (Datetime.bdexStreamOut Bdex.openOut 1 Datetime.default) ++ []))
       1 (Datetime.ofFields 2013 1 6 20 43 0 0)
     = (Bdex.mkIn [] true, Datetime.default)
  /\ Datetime.bdexStreamIn
       (Bdex.openIn
          (Bdex.out_bytes
             (Datetime.bdexStreamOut Bdex.openOut 1 (Datetime.ofFields 2013 1 6 20 43 0 0))
           ++ []))
       1 Datetime.default
     = (Bdex.mkIn [] true, Datetime.ofFields 2013 1 6 20 43 0 0).
Proof.
  assert (H0 : Datetime.I1 Datetime.default) by (right; split; reflexivity).
  assert (H1 : Datetime.I1 (Datetime.ofFields 2013 1 6 20 43 0 0)).
  { left. split; [vm_compute; discriminate |]. split; split; vm_compute; discriminate. }
  split; [exact (conj H0 H1) |].
  destruct (bdex_round_trip Datetime.default (Datetime.ofFields 2013 1 6 20 43 0 0) [] H0)
    as (_ & _ & E0).
  destruct (bdex_round_trip (Datetime.ofFields 2013 1 6 20 43 0 0) Datetime.default [] H1)
    as (_ & _ & E1).
  exact (conj E0 E1).
Defined.

Lemma bdexStreamIn_failure_keeps_value_witness :
  let dt := Datetime.ofFields 2013 1 6 20 43 0 0 in
  let truncated := Bdex.openIn (Bdex.putDate3 (Date.ofYearMonthDay 2014 6 26) ++ [x05; x26]) in
  (Bdex.in_valid truncated = true
   /\ Bdex.in_valid
        (fst (Bdex.Time_bdexStreamIn
                (fst (Bdex.Date_bdexStreamIn truncated Date.default)) Time.default))
      = false)
  /\ Bdex.in_valid (fst (Datetime.bdexStreamIn truncated 1 dt)) = false
  /\ snd (Datetime.bdexStreamIn truncated 1 dt) = dt.
Proof.
  intros dt truncated.
  assert (Hv : Bdex.in_valid truncated = true) by reflexivity.
  assert (Hf : Bdex.in_valid
                 (fst (Bdex.Time_bdexStreamIn
                         (fst (Bdex.Date_bdexStreamIn truncated Date.default))
                         Time.default))
               = false) by reflexivity.
  split; [exact (conj Hv Hf) |].
  exact (bdexStreamIn_failure_keeps_value truncated dt Hv Hf).
Defined.

(** ** The invariant *)

Lemma daysBeforeYear_bounds (year : Z) :
  1 <= year <= 9999 ->
  0 <= Date.daysBeforeYear year
  /\ Date.daysBeforeYear year + Date.daysInYear year <= 3652059.
Proof.
  intros Hy. unfold Date.daysBeforeYear, Date.daysInYear.
  destruct (Z.eq_dec year 9999) as [-> | Hn].
  - vm_compute. split; discriminate.
  - split; [Z.to_euclidean_division_equations; lia |].
    destruct (Date.isLeapYear year); Z.to_euclidean_division_equations; lia.
Qed.

Lemma dayOfYear_bounds (year month day : Z) :
  1 <= month <= 12 -> 1 <= day <= Date.daysInMonth year month ->
  1 <= Date.daysBeforeMonth year month + day <= Date.daysInYear year.
Proof.
  intros Hm Hd.
  assert (Hc : month = 1 \/ month = 2 \/ month = 3 \/ month = 4 \/ month = 5
               \/ month = 6 \/ month = 7 \/ month = 8 \/ month = 9
               \/ month = 10 \/ month = 11 \/ month = 12) by lia.
  unfold Date.daysBeforeMonth, Date.daysInYear, Date.daysInMonth in *.
  destruct (Date.isLeapYear year);
    repeat (destruct Hc as [-> | Hc]; [lia |]); subst; lia.
Qed.

Lemma ofYearMonthDay_valid (year month day : Z) :
  Date.isValidYearMonthDay year month day = true ->
  Date.valid (Date.ofYearMonthDay year month day).
Proof.
  unfold Date.isValidYearMonthDay. intros H. bool_to_prop.
  pose proof (daysBeforeYear_bounds year ltac:(lia)).
  pose proof (dayOfYear_bounds year month day ltac:(lia) ltac:(lia)).
  unfold Date.valid, Date.ofYearMonthDay. cbn [Date.d_serialDate]. unfold_units. lia.
Qed.

Lemma ofYearDay_valid (year dayOfYear : Z) :
  Date.isValidYearDay year dayOfYear = true ->
  Date.valid (Date.ofYearDay year dayOfYear).
Proof.
  unfold Date.isValidYearDay. intros H. bool_to_prop.
  pose proof (daysBeforeYear_bounds year ltac:(lia)).
  unfold Date.valid, Date.ofYearDay. cbn [Date.d_serialDate]. unfold_units. lia.
Qed.

Lemma Time_isValid_cases (h mi s ms : Z) :
  Time.isValid h mi s ms = true ->
  (0 <= h < 24 /\ 0 <= mi < 60 /\ 0 <= s < 60 /\ 0 <= ms < 1000)
  \/ (h = 24 /\ mi = 0 /\ s = 0 /\ ms = 0).
Proof.
  unfold Time.isValid. intros H.
  apply orb_true_iff in H. destruct H as [H | H]; bool_to_prop; [left | right]; lia.
Qed.

Lemma Time_not_default_iff (x : Time.t) :
  x <> Time.default <-> Time.d_milliseconds x <> 86400000.
Proof.
  split.
  - intros H E. apply H. apply Time_eq. exact E.
  - intros H E. apply H. rewrite E. reflexivity.
Qed.

(** A value with a time of day in 00:00:00.000 .. 23:59:59.999 and a date
    in range satisfies the invariant. *)
Lemma I1_of_parts (d : Date.t) (x : Time.t) :
  Date.valid d -> 0 <= Time.d_milliseconds x < 86400000 ->
  Datetime.I1 (Datetime.mk d x).
Proof.
  intros Hd Hx. left. cbn [Datetime.d_time Datetime.d_date].
  split; [apply Time_not_default_iff; lia |].
  split; [exact Hd |]. unfold Time.valid. unfold_units. lia.
Qed.

Lemma isValid_true_parts (y m d h mi s ms : Z) :
  Datetime.isValid y m d h mi s ms = true ->
  Date.isValidYearMonthDay y m d = true
  /\ Time.isValid h mi s ms = true
  /\ (h = 24 -> y = 1 /\ m = 1 /\ d = 1).
Proof.
  unfold Datetime.isValid.
  destruct (Date.isValidYearMonthDay y m d); [| discriminate].
  destruct (Time.isValid h mi s ms); [| discriminate].
  cbn [andb negb]. intros H. split; [reflexivity | split; [reflexivity |]].
  intros ->. change (24 =? 24) with true in H. cbn [andb] in H.
  destruct (Z.eqb_spec 1 y), (Z.eqb_spec 1 m), (Z.eqb_spec 1 d);
    cbn [andb negb] in H; try discriminate. lia.
Qed.

Lemma I1_ofFields (y m d h mi s ms : Z) :
  Datetime.isValid y m d h mi s ms = true ->
  Datetime.I1 (Datetime.ofFields y m d h mi s ms).
Proof.
  intros H. apply isValid_true_parts in H. destruct H as (Hd & Ht & Hh).
  apply Time_isValid_cases in Ht. unfold Datetime.ofFields.
  destruct Ht as [Ht | (-> & -> & -> & ->)].
  - apply I1_of_parts; [now apply ofYearMonthDay_valid |].
    unfold Time.ofFields. cbn [Time.d_milliseconds]. unfold_units. lia.
  - destruct (Hh eq_refl) as (-> & -> & ->).
    right. split; reflexivity.
Qed.

Lemma I1_cases (dt : Datetime.t) :
  Datetime.I1 dt ->
  Date.valid (Datetime.d_date dt)
  /\ 0 <= Time.sinceMidnight (Datetime.d_time dt) < 86400000
  /\ (Datetime.d_time dt = Time.default -> Datetime.d_date dt = Date.default).
Proof.
  intros HI. destruct (I1_valid dt HI) as [Hd Ht].
  split; [exact Hd |]. split; [now apply sinceMidnight_range |].
  destruct HI as [(Hn & _) | (_ & E)]; [contradiction | auto].
Qed.

Lemma I1_setTimeToZeroIfDefault (dt : Datetime.t) :
  Datetime.I1 dt ->
  Date.valid (Datetime.d_date (Datetime.setTimeToZeroIfDefault dt))
  /\ 0 <= Time.d_milliseconds (Datetime.d_time (Datetime.setTimeToZeroIfDefault dt))
     < 86400000.
Proof.
  intros HI. destruct (I1_cases dt HI) as (Hd & Hs & Hdef).
  unfold Datetime.setTimeToZeroIfDefault.
  destruct (Time.eqb Datetime.s_defaultTime (Datetime.d_time dt)) eqn:Et.
  - apply Time_eqb_eq in Et. symmetry in Et.
    rewrite (proj2 (Date_eqb_eq Datetime.s_defaultDate (Datetime.d_date dt)))
      by (symmetry; exact (Hdef Et)).
    cbn [andb Datetime.d_date Datetime.d_time].
    split; [exact Hd | vm_compute; split; [discriminate | reflexivity]].
  - cbn [andb]. split; [exact Hd |].
    rewrite <- sinceMidnight_not_default; [exact Hs |].
    intros E. rewrite E in Et. vm_compute in Et. discriminate.
Qed.

Lemma I1_add_floor (dt : Datetime.t) (total : Z) :
  Datetime.I1 dt ->
  Date.valid
    (Date.addDays (Datetime.d_date dt)
       ((Time.sinceMidnight (Datetime.d_time dt) + total) / 86400000)) ->
  Datetime.I1
    (Datetime.mk
       (Date.addDays (Datetime.d_date dt)
          ((Time.sinceMidnight (Datetime.d_time dt) + total) / 86400000))
       (Time.mk ((Time.sinceMidnight (Datetime.d_time dt) + total) mod 86400000))).
Proof.
  intros _ Hd. apply I1_of_parts; [exact Hd |].
  cbn [Time.d_milliseconds]. apply Z.mod_pos_bound. lia.
Qed.

Lemma I1_addAssign (dt : Datetime.t) (delta : DatetimeInterval.t) :
  Datetime.I1 dt -> Datetime.inRange_pre dt delta = true ->
  Datetime.I1 (Datetime.addAssign dt delta).
Proof.
  intros HI Hr. destruct (I1_cases dt HI) as (Hd & Hs & _).
  destruct (I1_valid dt HI) as [_ Ht].
  pose proof (inRange_pre_bounds dt delta Ht Hr) as Hb. cbv zeta in Hb.
  unfold Datetime.addAssign. rewrite addInterval_floor.
  apply I1_add_floor; [exact HI |].
  unfold Date.valid, Date.addDays in *. cbn [Date.d_serialDate]. unfold_units.
  Z.to_euclidean_division_equations. lia.
Qed.

Lemma I1_addTotalMsec (dt : Datetime.t) (totalMsec : Z) :
  Datetime.I1 dt -> Datetime.addTotalMsec_pre dt totalMsec = true ->
  Datetime.I1 (Datetime.addTotalMsec dt totalMsec).
Proof.
  intros HI Hp. unfold Datetime.addTotalMsec.
  unfold Datetime.addTotalMsec_pre, Datetime.addDays_pre, Date.addDaysIfValid in Hp.
  destruct (Date.isValidSerial
              (Date.d_serialDate (Datetime.d_date dt) + Datetime.numDays dt totalMsec))
    eqn:E; [| discriminate].
  unfold Date.isValidSerial in E. bool_to_prop.
  apply I1_of_parts.
  - unfold Date.valid, Date.addDays. cbn [Date.d_serialDate]. lia.
  - unfold Time.addMilliseconds. cbn [fst Time.d_milliseconds]. unfold_units.
    apply Z.mod_pos_bound. lia.
Qed.

Lemma setHour_range (x : Time.t) (h : Z) :
  Time.valid x -> 0 <= h < 24 ->
  0 <= Time.d_milliseconds (Time.setHour x h) < 86400000.
Proof.
  intros Hv Hh. pose proof (sinceMidnight_range x Hv) as Hs.
  unfold Time.setHour. destruct (Z.eqb_spec h 24); [lia |].
  cbn [Time.d_milliseconds]. unfold_units.
  Z.to_euclidean_division_equations. lia.
Qed.

Lemma setMinute_range (x : Time.t) (m : Z) :
  Time.valid x -> 0 <= m <= 59 ->
  0 <= Time.d_milliseconds (Time.setMinute x m) < 86400000.
Proof.
  intros Hv Hm. pose proof (sinceMidnight_range x Hv) as Hs.
  unfold Time.setMinute. cbn [Time.d_milliseconds]. unfold_units.
  Z.to_euclidean_division_equations. lia.
Qed.

Lemma setSecond_range (x : Time.t) (s : Z) :
  Time.valid x -> 0 <= s <= 59 ->
  0 <= Time.d_milliseconds (Time.setSecond x s) < 86400000.
Proof.
  intros Hv Hm. pose proof (sinceMidnight_range x Hv) as Hs.
  unfold Time.setSecond. cbn [Time.d_milliseconds]. unfold_units.
  Z.to_euclidean_division_equations. lia.
Qed.

Lemma setMillisecond_range (x : Time.t) (ms : Z) :
  Time.valid x -> 0 <= ms <= 999 ->
  0 <= Time.d_milliseconds (Time.setMillisecond x ms) < 86400000.
Proof.
  intros Hv Hm. pose proof (sinceMidnight_range x Hv) as Hs.
  unfold Time.setMillisecond. cbn [Time.d_milliseconds]. unfold_units.
  Z.to_euclidean_division_equations. lia.
Qed.

Lemma I1_setTime (dt : Datetime.t) (time : Time.t) :
  Datetime.I1 dt -> Time.valid time ->
  Datetime.isValidDateTime (Datetime.d_date dt) time = true ->
  Datetime.I1 (Datetime.setTime dt time).
Proof.
  intros HI Hv Hp. destruct (I1_valid dt HI) as [Hd _].
  unfold Datetime.setTime, Datetime.isValidDateTime in *.
  destruct (Time.eqb Time.default time) eqn:Et.
  - destruct (Date.eqb Date.default (Datetime.d_date dt)) eqn:Ed; [| discriminate].
    apply Time_eqb_eq in Et. apply Date_eqb_eq in Ed.
    right. cbn [Datetime.d_time Datetime.d_date]. split; symmetry; assumption.
  - apply I1_of_parts; [exact Hd |].
    apply not_default_range; [exact Hv |].
    intros E. rewrite E in Et. vm_compute in Et. discriminate.
Qed.

Lemma Time_ofFields_valid (h mi s ms : Z) :
  Time.isValid h mi s ms = true -> Time.valid (Time.ofFields h mi s ms).
Proof.
  intros H. apply Time_isValid_cases in H.
  unfold Time.valid, Time.ofFields. cbn [Time.d_milliseconds]. unfold_units.
  destruct H as [H | (-> & -> & -> & ->)]; lia.
Qed.

(** Every operation of the contract, used within its assertions,
    preserves the invariant. *)
Lemma run_preserves_I1 (o : Contract.op) (dt : Datetime.t) :
  Datetime.I1 dt -> Contract.pre o dt -> Datetime.I1 (Contract.run o dt).
Proof.
  intros HI Hp. destruct (I1_valid dt HI) as [Hd Ht].
  destruct o; cbn [Contract.pre Contract.run] in *.
  - now apply I1_addAssign.
  - unfold Datetime.subAssign.
    change (Datetime.I1 (Datetime.addAssign dt (DatetimeInterval.neg rhs))).
    now apply I1_addAssign.
  - now apply I1_ofFields.
  - unfold Datetime.setDatetimeIfValid.
    destruct (Datetime.isValid year month day hour minute second millisecond) eqn:E;
      cbn [snd]; [now apply I1_ofFields | exact HI].
  - unfold Datetime.setDate. apply I1_of_parts; [exact Hp |].
    apply I1_setTimeToZeroIfDefault; exact HI.
  - unfold Datetime.setYearDay. apply I1_of_parts; [now apply ofYearDay_valid |].
    apply I1_setTimeToZeroIfDefault; exact HI.
  - unfold Datetime.setYearMonthDay.
    apply I1_of_parts; [now apply ofYearMonthDay_valid |].
    apply I1_setTimeToZeroIfDefault; exact HI.
  - destruct Hp as [Hv Hp]. now apply I1_setTime.
  - unfold Datetime.setTimeFields_pre in Hp. apply andb_true_iff in Hp.
    destruct Hp as [Hv Hp].
    change (Datetime.I1 (Datetime.setTime dt (Time.ofFields hour minute second millisecond))).
    apply I1_setTime; [exact HI | now apply Time_ofFields_valid | exact Hp].
  - unfold Datetime.setHour_pre in Hp. apply andb_true_iff in Hp.
    destruct Hp as [Hr Hp]. apply andb_true_iff in Hr. destruct Hr as [H0 H24].
    apply Z.leb_le in H0, H24. unfold Datetime.setHour.
    destruct (Z.eq_dec hour 24) as [-> | Hn].
    + cbn [negb Z.eqb Pos.eqb orb] in Hp. apply Date_eqb_eq in Hp.
      right. cbn [Datetime.d_time Datetime.d_date]. split; [reflexivity | auto].
    + apply I1_of_parts; [exact Hd |]. apply setHour_range; [exact Ht | lia].
  - unfold Datetime.setMinute_pre in Hp. bool_to_prop.
    apply I1_of_parts; [exact Hd |]. apply setMinute_range; [exact Ht | lia].
  - unfold Datetime.setSecond_pre in Hp. bool_to_prop.
    apply I1_of_parts; [exact Hd |]. apply setSecond_range; [exact Ht | lia].
  - unfold Datetime.setMillisecond_pre in Hp. bool_to_prop.
    apply I1_of_parts; [exact Hd |]. apply setMillisecond_range; [exact Ht | lia].
  - unfold Datetime.addDays.
    destruct (I1_setTimeToZeroIfDefault dt HI) as [_ Hz].
    apply I1_of_parts; [| exact Hz].
    unfold Datetime.addDays_pre, Date.addDaysIfValid in Hp.
    assert (Edate : Datetime.d_date (Datetime.setTimeToZeroIfDefault dt) = Datetime.d_date dt).
    { unfold Datetime.setTimeToZeroIfDefault.
      destruct (Time.eqb Datetime.s_defaultTime (Datetime.d_time dt)
                && Date.eqb Datetime.s_defaultDate (Datetime.d_date dt)); reflexivity. }
    rewrite Edate.
    destruct (Date.isValidSerial (Date.d_serialDate (Datetime.d_date dt) + days)) eqn:E;
      [| discriminate].
    unfold Date.isValidSerial in E. bool_to_prop.
    unfold Date.valid, Date.addDays. cbn [Date.d_serialDate]. lia.
  - rewrite addTime_addAssign. now apply I1_addAssign.
  - now apply I1_addTotalMsec.
  - now apply I1_addTotalMsec.
  - now apply I1_addTotalMsec.
  - now apply I1_addTotalMsec.
Qed.

(** Every value reachable through the creators, the setters, the
    arithmetic and the interval operators satisfies the invariant. *)
Lemma reachable_I1 (dt : Datetime.t) : Contract.reachable dt -> Datetime.I1 dt.
Proof.
  induction 1 as [| date Hd | date time Hd Ht Hp | y m d h mi s ms Hp | o dt Hr IH Hp].
  - right. split; reflexivity.
  - apply I1_of_parts; [exact Hd |]. vm_compute. split; [discriminate | reflexivity].
  - change (Datetime.I1 (Datetime.setTime (Datetime.ofDate date) time)).
    apply I1_setTime; [| exact Ht | exact Hp].
    apply I1_of_parts; [exact Hd |]. vm_compute. split; [discriminate | reflexivity].
  - now apply I1_ofFields.
  - now apply run_preserves_I1.
Qed.

(** C1, the failing input.  The stream that holds the date 0001-01-02
    followed by the time 24:00:00.000 is well-formed for both sub-streams;
    [bdexStreamIn] reads it into the default object, leaves the stream
    valid and commits the pair, which the invariant excludes.  So a value
    reachable through stream-in pairs 24:00:00.000 with a date that is not
    the default date. *)
Theorem bdexStreamIn_breaks_I1 :
  let bytes := [x00; x00; x02; x05; x26; x5c; x00] in
  let r := Datetime.bdexStreamIn (Bdex.openIn bytes) 1 Datetime.default in
  bytes = Bdex.putDate (Date.ofYearMonthDay 1 1 2) ++ Bdex.putTime Time.default
  /\ Bdex.in_valid (fst r) = true
  /\ snd r = Datetime.mk (Date.ofYearMonthDay 1 1 2) Time.default
  /\ Contract.reachable_stream (snd r)
  /\ ~ Datetime.I1 (snd r).
Proof.
  cbv zeta.
  split; [reflexivity | split; [reflexivity | split; [reflexivity | split]]].
  - apply Contract.reach_streamIn. apply Contract.reach_contract.
    apply Contract.reach_default.
  - intros [(Ht & _) | (_ & Hd)].
    + apply Ht. reflexivity.
    + vm_compute in Hd. discriminate.
Qed.

(** * Further properties of the component *)

(** ** The two validity predicates and the invariant *)

Lemma ofYearMonthDay_default_iff (y m d : Z) :
  Date.isValidYearMonthDay y m d = true ->
  (Date.ofYearMonthDay y m d = Date.default <-> y = 1 /\ m = 1 /\ d = 1).
Proof.
  intros H. split; [| intros (-> & -> & ->); reflexivity].
  intros E. unfold Date.isValidYearMonthDay in H. bool_to_prop.
  pose proof (dayOfYear_bounds y m d ltac:(lia) ltac:(lia)) as Hdoy.
  unfold Date.ofYearMonthDay, Date.default in E. injection E as E.
  assert (Hy : y = 1).
  { destruct (Z.eq_dec y 1) as [| Hn]; [assumption | exfalso].
    unfold Date.daysBeforeYear in E. Z.to_euclidean_division_equations. lia. }
  subst y. change (Date.daysBeforeYear 1) with 0 in E.
  unfold Date.daysBeforeMonth in E. change (Date.isLeapYear 1) with false in E.
  assert (Hc : m = 1 \/ m = 2 \/ m = 3 \/ m = 4 \/ m = 5 \/ m = 6 \/ m = 7
               \/ m = 8 \/ m = 9 \/ m = 10 \/ m = 11 \/ m = 12) by lia.
  repeat (destruct Hc as [-> | Hc]; [cbv beta iota zeta in E; lia |]).
  subst m. cbv beta iota zeta in E. lia.
Qed.

Lemma Time_ofFields_default_iff (h mi s ms : Z) :
  Time.isValid h mi s ms = true ->
  (Time.ofFields h mi s ms = Time.default <-> h = 24).
Proof.
  intros H. apply Time_isValid_cases in H.
  unfold Time.ofFields, Time.default. unfold_units. split.
  - intros E. injection E as E. lia.
  - intros ->. destruct H as [H | (_ & -> & -> & ->)]; [lia | reflexivity].
Qed.

(** X1.  The two overloads of [isValid] agree: the seven fields are valid
    exactly when the date fields and the time fields are valid on their
    own and [isValid(Date, Time)] accepts the date and the time they
    denote. *)
Theorem isValid_overloads_agree (y m d h mi s ms : Z) :
  Datetime.isValid y m d h mi s ms
  = Date.isValidYearMonthDay y m d && Time.isValid h mi s ms
    && Datetime.isValidDateTime (Date.ofYearMonthDay y m d) (Time.ofFields h mi s ms).
Proof.
  unfold Datetime.isValid, Datetime.isValidDateTime.
  destruct (Date.isValidYearMonthDay y m d) eqn:Hd; [| reflexivity].
  destruct (Time.isValid h mi s ms) eqn:Ht; [| reflexivity].
  cbn [andb negb].
  pose proof (ofYearMonthDay_default_iff y m d Hd) as Ed.
  pose proof (Time_ofFields_default_iff h mi s ms Ht) as Et.
  destruct (Z.eqb_spec 24 h) as [E24 | E24].
  - rewrite (proj2 (Time_eqb_eq Time.default (Time.ofFields h mi s ms)))
      by (symmetry; apply Et; lia).
    cbn [andb].
    destruct (Date.eqb Date.default (Date.ofYearMonthDay y m d)) eqn:Eq.
    + apply Date_eqb_eq in Eq. symmetry in Eq. apply Ed in Eq.
      destruct Eq as (-> & -> & ->). reflexivity.
    + destruct (Z.eqb_spec 1 y), (Z.eqb_spec 1 m), (Z.eqb_spec 1 d);
        cbn [andb negb]; try reflexivity.
      exfalso. subst. rewrite (proj2 (Date_eqb_eq _ _)) in Eq; [discriminate |].
      reflexivity.
  - destruct (Time.eqb Time.default (Time.ofFields h mi s ms)) eqn:Eq;
      [| reflexivity].
    apply Time_eqb_eq in Eq. symmetry in Eq. apply Et in Eq. lia.
Qed.

(** X2.  For a date and a time that are values of their types,
    [isValid(Date, Time)], the assertion of the two-part constructor and
    of [setTime], holds exactly when the pair satisfies the invariant. *)
Theorem isValidDateTime_iff_I1 (date : Date.t) (time : Time.t) :
  Date.valid date -> Time.valid time ->
  (Datetime.isValidDateTime date time = true
   <-> Datetime.I1 (Datetime.ofDateTime date time)).
Proof.
  intros Hd Ht. split.
  - intros H.
    change (Datetime.I1 (Datetime.setTime (Datetime.ofDate date) time)).
    apply I1_setTime; [| exact Ht | exact H].
    apply I1_of_parts; [exact Hd |]. vm_compute. split; [discriminate | reflexivity].
  - unfold Datetime.isValidDateTime, Datetime.ofDateTime.
    intros [(Hn & _) | (E1 & E2)]; cbn [Datetime.d_time Datetime.d_date] in *.
    + destruct (Time.eqb Time.default time) eqn:E; [| reflexivity].
      apply Time_eqb_eq in E. exfalso. apply Hn. symmetry. exact E.
    + subst. reflexivity.
Qed.

Lemma isValidDateTime_iff_I1_witness :
  (Date.valid (Date.ofYearMonthDay 2013 1 6) /\ Time.valid Time.default)
  /\ Datetime.isValidDateTime (Date.ofYearMonthDay 2013 1 6) Time.default = false
  /\ ~ Datetime.I1 (Datetime.ofDateTime (Date.ofYearMonthDay 2013 1 6) Time.default).
Proof.
  assert (Hd : Date.valid (Date.ofYearMonthDay 2013 1 6))
    by (split; vm_compute; discriminate).
  assert (Ht : Time.valid Time.default) by (split; vm_compute; discriminate).
  split; [exact (conj Hd Ht) |].
  assert (Hf : Datetime.isValidDateTime (Date.ofYearMonthDay 2013 1 6) Time.default = false)
    by reflexivity.
  split; [exact Hf |].
  intros HI.
  apply (proj2 (isValidDateTime_iff_I1 _ _ Hd Ht)) in HI.
  rewrite Hf in HI. discriminate.
Defined.

(** ** The six comparison operators *)

(** X3.  The six comparison operators, each written out on its own in the
    header, are consistent: [!=] is the negation of [==], [>] is [<] with
    the operands exchanged, [<=] is [<] or [==] and the negation of [>],
    and [>=] is [>] or [==] and the negation of [<]. *)
Theorem comparison_operators_consistent (a b : Datetime.t) :
  Datetime.neqb a b = negb (Datetime.eqb a b)
  /\ Datetime.gtb a b = Datetime.ltb b a
  /\ Datetime.leb a b = Datetime.ltb a b || Datetime.eqb a b
  /\ Datetime.geb a b = Datetime.gtb a b || Datetime.eqb a b
  /\ Datetime.leb a b = negb (Datetime.gtb a b)
  /\ Datetime.geb a b = negb (Datetime.ltb a b).
Proof.
  destruct a as [[da] [ta]], b as [[db] [tb]].
  unfold Datetime.neqb, Datetime.eqb, Datetime.ltb, Datetime.gtb, Datetime.leb,
    Datetime.geb, Datetime.date, Datetime.time, Date.eqb, Date.ltb, Date.gtb,
    Time.eqb, Time.ltb, Time.gtb, Time.leb, Time.geb.
  cbn [Datetime.d_date Datetime.d_time Date.d_serialDate Time.d_milliseconds].
  destruct (Z.eqb_spec da db), (Z.eqb_spec db da), (Z.ltb_spec da db),
    (Z.ltb_spec db da), (Z.eqb_spec ta tb), (Z.ltb_spec ta tb),
    (Z.ltb_spec tb ta), (Z.leb_spec ta tb), (Z.leb_spec tb ta);
    cbn [andb orb negb]; try lia; repeat split.
Qed.

(** ** Subtraction, addition and the ordering *)

Lemma sub_total_mod (a b : Datetime.t) :
  DatetimeInterval.totalMilliseconds (Datetime.sub a b)
  = (Date.d_serialDate (Datetime.d_date a) - Date.d_serialDate (Datetime.d_date b))
    * 86400000
    + (Time.d_milliseconds (Datetime.d_time a) mod 86400000
       - Time.d_milliseconds (Datetime.d_time b) mod 86400000).
Proof.
  unfold Datetime.sub, DatetimeInterval.add, Time.sub, Date.sub,
    DatetimeInterval.ofFields.
  cbn [DatetimeInterval.totalMilliseconds]. unfold_units. lia.
Qed.

(** X4.  The difference of two values is antisymmetric and additive:
    [b - a] is the negation of [a - b], [a - a] is the zero interval, and
    [(a - b) + (b - c)] is [a - c]. *)
Theorem sub_antisymmetric_additive (a b c : Datetime.t) :
  Datetime.sub b a = DatetimeInterval.neg (Datetime.sub a b)
  /\ Datetime.sub a a = DatetimeInterval.ofFields 0 0 0 0 0
  /\ DatetimeInterval.add (Datetime.sub a b) (Datetime.sub b c) = Datetime.sub a c.
Proof.
  assert (Heq : forall i j : DatetimeInterval.t,
             DatetimeInterval.totalMilliseconds i = DatetimeInterval.totalMilliseconds j
             -> i = j)
    by (intros [i] [j]; simpl; congruence).
  repeat split; apply Heq;
    unfold DatetimeInterval.neg, DatetimeInterval.add;
    cbn [DatetimeInterval.totalMilliseconds]; rewrite !sub_total_mod;
    unfold DatetimeInterval.ofFields; cbn [DatetimeInterval.totalMilliseconds];
    unfold_units; lia.
Qed.

(** X5.  For two values that are not the sentinel, the ordering operators
    agree with the sign of the difference: [a < b] exactly when [a - b]
    is negative, [a == b] exactly when it is zero, [a > b] exactly when
    it is positive. *)
Theorem ordering_agrees_with_sub (a b : Datetime.t) :
  Datetime.I1 a -> Datetime.d_time a <> Time.default ->
  Datetime.I1 b -> Datetime.d_time b <> Time.default ->
  Datetime.ltb a b = (DatetimeInterval.totalMilliseconds (Datetime.sub a b) <? 0)
  /\ Datetime.eqb a b = (DatetimeInterval.totalMilliseconds (Datetime.sub a b) =? 0)
  /\ Datetime.gtb a b = (0 <? DatetimeInterval.totalMilliseconds (Datetime.sub a b)).
Proof.
  intros HIa Hna HIb Hnb.
  destruct (I1_valid a HIa) as [_ Hva]. destruct (I1_valid b HIb) as [_ Hvb].
  pose proof (not_default_range _ Hva Hna) as Ha.
  pose proof (not_default_range _ Hvb Hnb) as Hb.
  rewrite sub_total by assumption.
  destruct a as [[da] [ta]], b as [[db] [tb]].
  unfold Datetime.eqb, Datetime.ltb, Datetime.gtb, Datetime.date, Datetime.time,
    Date.eqb, Date.ltb, Date.gtb, Time.eqb, Time.ltb, Time.gtb.
  cbn [Datetime.d_date Datetime.d_time Date.d_serialDate Time.d_milliseconds] in *.
  destruct (Z.eqb_spec da db), (Z.ltb_spec da db), (Z.ltb_spec db da),
    (Z.eqb_spec ta tb), (Z.ltb_spec ta tb), (Z.ltb_spec tb ta),
    (Z.ltb_spec ((da - db) * 86400000 + ta - tb) 0),
    (Z.eqb_spec ((da - db) * 86400000 + ta - tb) 0),
    (Z.ltb_spec 0 ((da - db) * 86400000 + ta - tb));
    cbn [andb orb]; try lia; repeat split.
Qed.

Lemma ordering_agrees_with_sub_witness :
  let a := Datetime.ofFields 2013 1 6 20 43 0 0 in
  let b := Datetime.ofFields 2013 1 7 2 43 9 0 in
  (Datetime.I1 a /\ Datetime.d_time a <> Time.default
   /\ Datetime.I1 b /\ Datetime.d_time b <> Time.default)
  /\ Datetime.ltb a b = true
  /\ DatetimeInterval.totalMilliseconds (Datetime.sub a b) = -21609000.
Proof.
  intros a b.
  assert (Hna : Datetime.d_time a <> Time.default) by (vm_compute; discriminate).
  assert (Hnb : Datetime.d_time b <> Time.default) by (vm_compute; discriminate).
  assert (HIa : Datetime.I1 a).
  { left. split; [exact Hna |]. split; split; vm_compute; discriminate. }
  assert (HIb : Datetime.I1 b).
  { left. split; [exact Hnb |]. split; split; vm_compute; discriminate. }
  split; [auto |].
  destruct (ordering_agrees_with_sub a b HIa Hna HIb Hnb) as (E & _ & _).
  split; [rewrite E; reflexivity | reflexivity].
Defined.

Lemma DatetimeInterval_eq (i j : DatetimeInterval.t) :
  DatetimeInterval.totalMilliseconds i = DatetimeInterval.totalMilliseconds j -> i = j.
Proof. destruct i, j; simpl; congruence. Qed.

Lemma addAssign_floor (dt : Datetime.t) (i : DatetimeInterval.t) :
  Datetime.addAssign dt i
  = Datetime.mk
      (Date.addDays (Datetime.d_date dt)
         ((Time.sinceMidnight (Datetime.d_time dt)
           + DatetimeInterval.totalMilliseconds i) / 86400000))
      (Time.mk ((Time.sinceMidnight (Datetime.d_time dt)
                 + DatetimeInterval.totalMilliseconds i) mod 86400000)).
Proof. unfold Datetime.addAssign. rewrite addInterval_floor. reflexivity. Qed.

Lemma sinceMidnight_mod (r : Z) :
  Time.sinceMidnight (Time.mk (r mod 86400000)) = r mod 86400000.
Proof.
  pose proof (Z.mod_pos_bound r 86400000 eq_refl) as H.
  unfold Time.sinceMidnight. cbn [Time.d_milliseconds]. unfold_units.
  destruct (Z.eqb_spec (r mod 86400000) 86400000); [lia | reflexivity].
Qed.

(** X6.  Adding an interval and taking the difference to the start gives
    the interval back: [(dt + i) - dt == i], for every interval and every
    [dt] that is not the sentinel. *)
Theorem add_then_sub_start (dt : Datetime.t) (i : DatetimeInterval.t) :
  Datetime.I1 dt -> Datetime.d_time dt <> Time.default ->
  Datetime.sub (Datetime.plus dt i) dt = i.
Proof.
  intros HI Hn. destruct (I1_valid dt HI) as [_ Hv].
  pose proof (not_default_range _ Hv Hn) as Ht.
  destruct i as [total]. apply DatetimeInterval_eq.
  rewrite sub_total_mod. unfold Datetime.plus. rewrite addAssign_floor.
  rewrite sinceMidnight_not_default by assumption.
  cbn [Datetime.d_date Datetime.d_time Date.d_serialDate Time.d_milliseconds
       Date.addDays DatetimeInterval.totalMilliseconds].
  rewrite Z.mod_mod by lia.
  rewrite (Z.mod_small (Time.d_milliseconds (Datetime.d_time dt))) by lia.
  Z.to_euclidean_division_equations. lia.
Qed.

Lemma add_then_sub_start_witness :
  let dt := Datetime.ofFields 2013 1 6 20 43 0 0 in
  let i := DatetimeInterval.ofFields 0 (-246) 0 (-10) 1000 in
  (Datetime.I1 dt /\ Datetime.d_time dt <> Time.default)
  /\ Datetime.plus dt i = Datetime.ofFields 2012 12 27 14 42 51 0
  /\ Datetime.sub (Datetime.plus dt i) dt = i.
Proof.
  intros dt i.
  assert (Hn : Datetime.d_time dt <> Time.default) by (vm_compute; discriminate).
  assert (HI : Datetime.I1 dt).
  { left. split; [exact Hn |]. split; split; vm_compute; discriminate. }
  split; [exact (conj HI Hn) |].
  split; [reflexivity | exact (add_then_sub_start dt i HI Hn)].
Defined.

(** X7.  Subtracting an interval undoes adding it: [(dt + i) - i == dt]
    and [(dt - i) + i == dt], through [operator-=] and [operator+=], for
    every interval and every [dt] that is not the sentinel; and
    subtracting an interval is adding its negation. *)
Theorem add_then_minus (dt : Datetime.t) (i : DatetimeInterval.t) :
  Datetime.I1 dt -> Datetime.d_time dt <> Time.default ->
  Datetime.minus (Datetime.plus dt i) i = dt
  /\ Datetime.plus (Datetime.minus dt i) i = dt
  /\ Datetime.minus dt i = Datetime.plus dt (DatetimeInterval.neg i).
Proof.
  intros HI Hn. destruct (I1_valid dt HI) as [_ Hv].
  pose proof (not_default_range _ Hv Hn) as Ht.
  assert (Hneg : forall x j, Datetime.minus x j = Datetime.plus x (DatetimeInterval.neg j))
    by reflexivity.
  split; [| split; [| apply Hneg]].
  - rewrite Hneg. unfold Datetime.plus. rewrite (addAssign_floor dt i).
    rewrite addAssign_floor.
    cbn [Datetime.d_date Datetime.d_time]. rewrite sinceMidnight_mod.
    rewrite sinceMidnight_not_default by assumption.
    destruct i as [total]. destruct dt as [[s] [t]].
    unfold DatetimeInterval.neg, Date.addDays.
    cbn [Datetime.d_date Datetime.d_time Date.d_serialDate Time.d_milliseconds
         DatetimeInterval.totalMilliseconds] in *.
    f_equal; f_equal; Z.to_euclidean_division_equations; lia.
  - rewrite Hneg. unfold Datetime.plus.
    rewrite (addAssign_floor dt (DatetimeInterval.neg i)).
    rewrite addAssign_floor.
    cbn [Datetime.d_date Datetime.d_time]. rewrite sinceMidnight_mod.
    rewrite sinceMidnight_not_default by assumption.
    destruct i as [total]. destruct dt as [[s] [t]].
    unfold DatetimeInterval.neg, Date.addDays.
    cbn [Datetime.d_date Datetime.d_time Date.d_serialDate Time.d_milliseconds
         DatetimeInterval.totalMilliseconds] in *.
    f_equal; f_equal; Z.to_euclidean_division_equations; lia.
Qed.

Lemma add_then_minus_witness :
  let dt := Datetime.ofFields 2013 1 6 20 43 0 0 in
  let i := DatetimeInterval.ofFields 10 6 0 9 0 in
  (Datetime.I1 dt /\ Datetime.d_time dt <> Time.default)
  /\ Datetime.plus dt i = Datetime.ofFields 2013 1 17 2 43 9 0
  /\ Datetime.minus (Datetime.plus dt i) i = dt.
Proof.
  intros dt i.
  assert (Hn : Datetime.d_time dt <> Time.default) by (vm_compute; discriminate).
  assert (HI : Datetime.I1 dt).
  { left. split; [exact Hn |]. split; split; vm_compute; discriminate. }
  split; [exact (conj HI Hn) |].
  split; [reflexivity | exact (proj1 (add_then_minus dt i HI Hn))].
Defined.

(** X8.  Adding an interval moves a value that is not the sentinel in the
    direction of the interval's sign: forward for a positive interval,
    backward for a negative one, and not at all for the zero interval. *)
Theorem plus_moves_with_sign (dt : Datetime.t) (i : DatetimeInterval.t) :
  Datetime.I1 dt -> Datetime.d_time dt <> Time.default ->
  Datetime.ltb dt (Datetime.plus dt i) = (0 <? DatetimeInterval.totalMilliseconds i)
  /\ Datetime.gtb dt (Datetime.plus dt i) = (DatetimeInterval.totalMilliseconds i <? 0)
  /\ Datetime.eqb dt (Datetime.plus dt i) = (DatetimeInterval.totalMilliseconds i =? 0).
Proof.
  intros HI Hn. destruct (I1_valid dt HI) as [_ Hv].
  pose proof (not_default_range _ Hv Hn) as Ht.
  unfold Datetime.plus. rewrite addAssign_floor.
  rewrite sinceMidnight_not_default by assumption.
  destruct i as [total]. destruct dt as [[s] [t]].
  unfold Datetime.eqb, Datetime.ltb, Datetime.gtb, Datetime.date, Datetime.time,
    Date.eqb, Date.ltb, Date.gtb, Time.eqb, Time.ltb, Time.gtb, Date.addDays.
  cbn [Datetime.d_date Datetime.d_time Date.d_serialDate Time.d_milliseconds
       DatetimeInterval.totalMilliseconds] in *.
  pose proof (Z.div_mod (t + total) 86400000 ltac:(lia)) as Hdm.
  pose proof (Z.mod_pos_bound (t + total) 86400000 eq_refl) as Hmb.
  set (q := (t + total) / 86400000) in *. set (r := (t + total) mod 86400000) in *.
  destruct (Z.eqb_spec s (s + q)), (Z.ltb_spec s (s + q)), (Z.ltb_spec (s + q) s),
    (Z.eqb_spec t r), (Z.ltb_spec t r), (Z.ltb_spec r t),
    (Z.ltb_spec 0 total), (Z.ltb_spec total 0), (Z.eqb_spec total 0);
    cbn [andb orb]; try lia; repeat split.
Qed.

Lemma plus_moves_with_sign_witness :
  let dt := Datetime.ofFields 2013 1 6 20 43 0 0 in
  let i := DatetimeInterval.ofFields 0 0 0 0 (-1) in
  (Datetime.I1 dt /\ Datetime.d_time dt <> Time.default)
  /\ Datetime.gtb dt (Datetime.plus dt i) = true.
Proof.
  intros dt i.
  assert (Hn : Datetime.d_time dt <> Time.default) by (vm_compute; discriminate).
  assert (HI : Datetime.I1 dt).
  { left. split; [exact Hn |]. split; split; vm_compute; discriminate. }
  split; [exact (conj HI Hn) |].
  destruct (plus_moves_with_sign dt i HI Hn) as (_ & E & _).
  rewrite E. reflexivity.
Defined.

(** ** How the adders compose *)

Lemma addTotalMsec_time_valid (dt : Datetime.t) (totalMsec : Z) :
  Time.valid (Datetime.d_time (Datetime.addTotalMsec dt totalMsec)).
Proof.
  unfold Datetime.addTotalMsec, Time.addMilliseconds, Time.valid.
  cbn [Datetime.d_time fst Time.d_milliseconds]. unfold_units.
  pose proof (Z.mod_pos_bound
                (Time.sinceMidnight (Datetime.d_time dt) + Datetime.normMsec totalMsec)
                86400000 eq_refl). lia.
Qed.

Lemma addTotalMsec_compose (dt : Datetime.t) (a b : Z) :
  Time.valid (Datetime.d_time dt) ->
  - 2 ^ 31 * 86400000 <= a < (2 ^ 31 - 1) * 86400000 ->
  - 2 ^ 31 * 86400000 <= b < (2 ^ 31 - 1) * 86400000 ->
  - 2 ^ 31 * 86400000 <= a + b < (2 ^ 31 - 1) * 86400000 ->
  Datetime.addTotalMsec (Datetime.addTotalMsec dt a) b
  = Datetime.addTotalMsec dt (a + b).
Proof.
  intros Hv Ha Hb Hab.
  pose proof (sinceMidnight_range _ Hv) as Ht.
  destruct (addTotalMsec_floor (Datetime.addTotalMsec dt a) b
              (addTotalMsec_time_valid dt a) Hb) as (_ & _ & _ & ->).
  destruct (addTotalMsec_floor dt a Hv Ha) as (_ & _ & _ & ->).
  destruct (addTotalMsec_floor dt (a + b) Hv Hab) as (_ & _ & _ & ->).
  cbn [Datetime.d_date Datetime.d_time]. rewrite sinceMidnight_mod.
  unfold Date.addDays. cbn [Date.d_serialDate].
  set (t := Time.sinceMidnight (Datetime.d_time dt)) in *.
  f_equal; f_equal; Z.to_euclidean_division_equations; lia.
Qed.

(** X9.  Millisecond addition composes: [addMilliseconds(a)] followed by
    [addMilliseconds(b)] is [addMilliseconds(a + b)], for amounts whose
    day counts fit an [int]. *)
Theorem addMilliseconds_compose (dt : Datetime.t) (a b : Z) :
  Time.valid (Datetime.d_time dt) ->
  - 2 ^ 31 * k_MILLISECONDS_PER_DAY <= a < (2 ^ 31 - 1) * k_MILLISECONDS_PER_DAY ->
  - 2 ^ 31 * k_MILLISECONDS_PER_DAY <= b < (2 ^ 31 - 1) * k_MILLISECONDS_PER_DAY ->
  - 2 ^ 31 * k_MILLISECONDS_PER_DAY <= a + b < (2 ^ 31 - 1) * k_MILLISECONDS_PER_DAY ->
  Datetime.addMilliseconds (Datetime.addMilliseconds dt a) b
  = Datetime.addMilliseconds dt (a + b).
Proof.
  unfold_units. intros Hv Ha Hb Hab. unfold Datetime.addMilliseconds.
  now apply addTotalMsec_compose.
Qed.

Lemma addMilliseconds_compose_witness :
  let dt := Datetime.ofFields 2014 6 26 20 31 23 0 in
  (Time.valid (Datetime.d_time dt)
   /\ - 2 ^ 31 * k_MILLISECONDS_PER_DAY <= 32128000 < (2 ^ 31 - 1) * k_MILLISECONDS_PER_DAY
   /\ - 2 ^ 31 * k_MILLISECONDS_PER_DAY <= -86400001 < (2 ^ 31 - 1) * k_MILLISECONDS_PER_DAY
   /\ - 2 ^ 31 * k_MILLISECONDS_PER_DAY <= 32128000 + -86400001
      < (2 ^ 31 - 1) * k_MILLISECONDS_PER_DAY)
  /\ Datetime.addMilliseconds (Datetime.addMilliseconds dt 32128000) (-86400001)
     = Datetime.ofFields 2014 6 26 5 26 50 999.
Proof.
  intros dt.
  assert (Hv : Time.valid (Datetime.d_time dt)) by (split; vm_compute; discriminate).
  assert (Ha : - 2 ^ 31 * k_MILLISECONDS_PER_DAY <= 32128000
               < (2 ^ 31 - 1) * k_MILLISECONDS_PER_DAY)
    by (split; [vm_compute; discriminate | reflexivity]).
  assert (Hb : - 2 ^ 31 * k_MILLISECONDS_PER_DAY <= -86400001
               < (2 ^ 31 - 1) * k_MILLISECONDS_PER_DAY)
    by (split; [vm_compute; discriminate | reflexivity]).
  assert (Hab : - 2 ^ 31 * k_MILLISECONDS_PER_DAY <= 32128000 + -86400001
                < (2 ^ 31 - 1) * k_MILLISECONDS_PER_DAY)
    by (split; [vm_compute; discriminate | reflexivity]).
  split; [auto |].
  rewrite (addMilliseconds_compose dt 32128000 (-86400001) Hv Ha Hb Hab).
  reflexivity.
Defined.

(** X10.  [addTime(hours, minutes, seconds, milliseconds)] is [addHours],
    [addMinutes], [addSeconds] and [addMilliseconds] applied in turn, for
    amounts of at most 2^28 days each. *)
Theorem addTime_is_adders_in_turn (dt : Datetime.t) (hours minutes seconds milliseconds : Z) :
  Time.valid (Datetime.d_time dt) ->
  Z.abs (hours * k_MILLISECONDS_PER_HOUR) <= 2 ^ 28 * k_MILLISECONDS_PER_DAY ->
  Z.abs (minutes * k_MILLISECONDS_PER_MINUTE) <= 2 ^ 28 * k_MILLISECONDS_PER_DAY ->
  Z.abs (seconds * k_MILLISECONDS_PER_SECOND) <= 2 ^ 28 * k_MILLISECONDS_PER_DAY ->
  Z.abs milliseconds <= 2 ^ 28 * k_MILLISECONDS_PER_DAY ->
  Datetime.addMilliseconds
    (Datetime.addSeconds
       (Datetime.addMinutes (Datetime.addHours dt hours) minutes) seconds)
    milliseconds
  = Datetime.addTime dt hours minutes seconds milliseconds.
Proof.
  unfold_units. intros Hv Hh Hm Hs Hms.
  unfold Datetime.addHours, Datetime.addMinutes, Datetime.addSeconds,
    Datetime.addMilliseconds. cbv zeta. unfold_units.
  rewrite !wrapInt64_id by (unfold inInt64; lia).
  rewrite (addTotalMsec_compose dt) by (assumption || lia).
  rewrite (addTotalMsec_compose dt) by (assumption || lia).
  rewrite (addTotalMsec_compose dt) by (assumption || lia).
  destruct (addTotalMsec_floor dt
              (hours * 3600000 + minutes * 60000 + seconds * 1000 + milliseconds) Hv)
    as (_ & _ & _ & ->); [lia |].
  rewrite addTime_addAssign, addAssign_floor.
  unfold DatetimeInterval.ofFields. cbn [DatetimeInterval.totalMilliseconds].
  unfold_units. rewrite Z.mul_0_l, Z.add_0_l. reflexivity.
Qed.

Lemma addTime_is_adders_in_turn_witness :
  let dt := Datetime.ofFields 2013 1 17 2 43 9 0 in
  (Time.valid (Datetime.d_time dt)
   /\ Z.abs (-246 * k_MILLISECONDS_PER_HOUR) <= 2 ^ 28 * k_MILLISECONDS_PER_DAY
   /\ Z.abs (0 * k_MILLISECONDS_PER_MINUTE) <= 2 ^ 28 * k_MILLISECONDS_PER_DAY
   /\ Z.abs (-10 * k_MILLISECONDS_PER_SECOND) <= 2 ^ 28 * k_MILLISECONDS_PER_DAY
   /\ Z.abs 1000 <= 2 ^ 28 * k_MILLISECONDS_PER_DAY)
  /\ Datetime.addMilliseconds
       (Datetime.addSeconds (Datetime.addMinutes (Datetime.addHours dt (-246)) 0) (-10))
       1000
     = Datetime.ofFields 2013 1 6 20 43 0 0.
Proof.
  intros dt.
  assert (Hv : Time.valid (Datetime.d_time dt)) by (split; vm_compute; discriminate).
  assert (Hh : Z.abs (-246 * k_MILLISECONDS_PER_HOUR) <= 2 ^ 28 * k_MILLISECONDS_PER_DAY)
    by (vm_compute; discriminate).
  assert (Hm : Z.abs (0 * k_MILLISECONDS_PER_MINUTE) <= 2 ^ 28 * k_MILLISECONDS_PER_DAY)
    by (vm_compute; discriminate).
  assert (Hs : Z.abs (-10 * k_MILLISECONDS_PER_SECOND) <= 2 ^ 28 * k_MILLISECONDS_PER_DAY)
    by (vm_compute; discriminate).
  assert (Hms : Z.abs 1000 <= 2 ^ 28 * k_MILLISECONDS_PER_DAY)
    by (vm_compute; discriminate).
  split; [auto |].
  rewrite (addTime_is_adders_in_turn dt (-246) 0 (-10) 1000 Hv Hh Hm Hs Hms).
  reflexivity.
Defined.

(** X11.  Day addition composes on a value that satisfies the invariant:
    [addDays(a)] followed by [addDays(b)] is [addDays(a + b)], the
    sentinel included; and [addDays(0)] changes nothing but the time of
    the sentinel. *)
Theorem addDays_compose (dt : Datetime.t) (a b : Z) :
  Datetime.I1 dt ->
  Datetime.addDays (Datetime.addDays dt a) b = Datetime.addDays dt (a + b)
  /\ Datetime.addDays dt 0 = Datetime.setTimeToZeroIfDefault dt.
Proof.
  intros HI.
  assert (Hz : Datetime.d_time (Datetime.setTimeToZeroIfDefault dt) <> Time.default).
  { destruct (I1_setTimeToZeroIfDefault dt HI) as [_ Hr].
    apply Time_not_default_iff. lia. }
  split.
  - rewrite (addDays_not_default (Datetime.addDays dt a) b) by exact Hz.
    unfold Datetime.addDays, Date.addDays. cbn [Datetime.d_date Datetime.d_time Date.d_serialDate].
    f_equal. f_equal. lia.
  - unfold Datetime.addDays, Date.addDays. rewrite Z.add_0_r.
    destruct (Datetime.setTimeToZeroIfDefault dt) as [[s] t]. reflexivity.
Qed.

Lemma addDays_compose_witness :
  Datetime.I1 Datetime.default
  /\ Datetime.addDays (Datetime.addDays Datetime.default 10) (-3)
     = Datetime.ofFields 1 1 8 0 0 0 0.
Proof.
  assert (HI : Datetime.I1 Datetime.default) by (right; split; reflexivity).
  split; [exact HI |].
  rewrite (proj1 (addDays_compose Datetime.default 10 (-3) HI)). reflexivity.
Defined.

(** ** The sentinel under the manipulators *)

(** X12.  The default value 0001-01-01 24:00:00.000 behaves as
    0001-01-01 00:00:00.000 under every manipulator: each operation
    yields the same result on both, the one exception being a
    [setDatetimeIfValid] that fails and so leaves each as it was. *)
Theorem sentinel_behaves_as_midnight (o : Contract.op) :
  Contract.run o Datetime.default
  = Contract.run o (Datetime.ofFields 1 1 1 0 0 0 0)
  \/ exists y m d h mi s ms,
       o = Contract.SetDatetimeIfValid y m d h mi s ms
       /\ Datetime.isValid y m d h mi s ms = false.
Proof.
  destruct o; try (left; reflexivity).
  cbn [Contract.run]. unfold Datetime.setDatetimeIfValid.
  destruct (Datetime.isValid year month day hour minute second millisecond) eqn:E.
  - left. reflexivity.
  - right. exists year, month, day, hour, minute, second, millisecond. auto.
Qed.

(** X13.  No arithmetic manipulator leaves the reserved time behind: after
    [operator+=], [operator-=], [addDays], [addTime] or a scalar adder on
    a value that satisfies the invariant, the time part is in
    00:00:00.000 .. 23:59:59.999, whatever the amount. *)
Theorem arithmetic_leaves_reserved_time
    (dt : Datetime.t) (i : DatetimeInterval.t) (days h m s ms n : Z) :
  Datetime.I1 dt ->
  let inDay (x : Datetime.t) :=
    0 <= Time.d_milliseconds (Datetime.d_time x) < k_MILLISECONDS_PER_DAY in
  inDay (Datetime.addAssign dt i)
  /\ inDay (Datetime.subAssign dt i)
  /\ inDay (Datetime.addDays dt days)
  /\ inDay (Datetime.addTime dt h m s ms)
  /\ inDay (Datetime.addHours dt n)
  /\ inDay (Datetime.addMinutes dt n)
  /\ inDay (Datetime.addSeconds dt n)
  /\ inDay (Datetime.addMilliseconds dt n).
Proof.
  intros HI. cbv zeta. unfold_units.
  assert (Hadd : forall j, 0 <= Time.d_milliseconds
                                  (Datetime.d_time (Datetime.addAssign dt j)) < 86400000).
  { intros j. rewrite addAssign_floor. cbn [Datetime.d_time Time.d_milliseconds].
    apply Z.mod_pos_bound. lia. }
  assert (Htot : forall x, 0 <= Time.d_milliseconds
                                  (Datetime.d_time (Datetime.addTotalMsec dt x)) < 86400000).
  { intros x. unfold Datetime.addTotalMsec, Time.addMilliseconds.
    cbn [Datetime.d_time fst Time.d_milliseconds]. unfold_units.
    apply Z.mod_pos_bound. lia. }
  split; [apply Hadd |]. split; [apply (Hadd (DatetimeInterval.neg i)) |].
  split; [apply (I1_setTimeToZeroIfDefault dt HI) |].
  split; [rewrite addTime_addAssign; apply Hadd |].
  repeat split; apply Htot.
Qed.

Lemma arithmetic_leaves_reserved_time_witness :
  Datetime.I1 Datetime.default
  /\ Datetime.addHours Datetime.default 0 = Datetime.ofFields 1 1 1 0 0 0 0
  /\ 0 <= Time.d_milliseconds (Datetime.d_time (Datetime.addHours Datetime.default 0))
     < k_MILLISECONDS_PER_DAY.
Proof.
  assert (HI : Datetime.I1 Datetime.default) by (right; split; reflexivity).
  split; [exact HI |]. split; [reflexivity |].
  destruct (arithmetic_leaves_reserved_time Datetime.default
              (DatetimeInterval.ofFields 0 0 0 0 0) 0 0 0 0 0 0 HI)
    as (_ & _ & _ & _ & H & _).
  exact H.
Defined.

(** X14.  The invariant over the whole contract but stream-in: a value
    reachable through the creators, the setters, the arithmetic and the
    interval operators, each used within its assertions, has a date and a
    time in their ranges, is accepted by [isValid(Date, Time)], and holds
    24:00:00.000 only if it is the default value. *)
Theorem contract_keeps_invariant (dt : Datetime.t) :
  Contract.reachable dt ->
  Date.valid (Datetime.d_date dt)
  /\ Time.valid (Datetime.d_time dt)
  /\ Datetime.isValidDateTime (Datetime.d_date dt) (Datetime.d_time dt) = true
  /\ (Datetime.hour dt = 24 <-> dt = Datetime.default).
Proof.
  intros Hr. pose proof (reachable_I1 dt Hr) as HI.
  destruct (I1_valid dt HI) as [Hd Ht].
  split; [exact Hd |]. split; [exact Ht |]. split.
  - unfold Datetime.isValidDateTime.
    destruct HI as [(Hn & _) | (E1 & E2)].
    + destruct (Time.eqb Time.default (Datetime.d_time dt)) eqn:E; [| reflexivity].
      apply Time_eqb_eq in E. exfalso. apply Hn. symmetry. exact E.
    + rewrite E1, E2. reflexivity.
  - unfold Datetime.hour, Time.hour. unfold_units. split.
    + intros Hh. destruct HI as [(Hn & _ & _) | (E1 & E2)].
      * exfalso. pose proof (not_default_range _ Ht Hn).
        Z.to_euclidean_division_equations. lia.
      * destruct dt; cbn in *; subst; reflexivity.
    + intros ->. reflexivity.
Qed.

Lemma contract_keeps_invariant_witness :
  let dt := Contract.run (Contract.SetMinute 5)
              (Contract.run (Contract.SetHour 24)
                 (Contract.run (Contract.SetYearMonthDay 1 1 1)
                    (Contract.run (Contract.AddHours 30) Datetime.default))) in
  Contract.reachable dt
  /\ dt = Datetime.ofFields 1 1 1 0 5 0 0
  /\ Datetime.isValidDateTime (Datetime.d_date dt) (Datetime.d_time dt) = true.
Proof.
  intros dt.
  assert (Hr : Contract.reachable dt).
  { unfold dt.
    apply Contract.reach_run; [| reflexivity].
    apply Contract.reach_run; [| reflexivity].
    apply Contract.reach_run; [| reflexivity].
    apply Contract.reach_run; [| reflexivity].
    apply Contract.reach_default. }
  split; [exact Hr |]. split; [reflexivity |].
  destruct (contract_keeps_invariant dt Hr) as (_ & _ & H & _). exact H.
Defined.

(** ** The range assertions *)

Lemma inRange_pre_iff (dt : Datetime.t) (delta : DatetimeInterval.t) :
  Time.valid (Datetime.d_time dt) ->
  (Datetime.inRange_pre dt delta = true
   <-> (1 - Date.d_serialDate (Datetime.d_date dt)) * 86400000
       - Time.sinceMidnight (Datetime.d_time dt)
       <= DatetimeInterval.totalMilliseconds delta
       <= (3652059 - Date.d_serialDate (Datetime.d_date dt)) * 86400000
          + 86399999 - Time.sinceMidnight (Datetime.d_time dt)).
Proof.
  intros Hv. split; [apply (inRange_pre_bounds dt delta Hv) |].
  intros Hb. unfold Datetime.inRange_pre. rewrite max_value, min_value.
  unfold DatetimeInterval.leb, DatetimeInterval.geb. rewrite !sub_total_mod.
  cbn [Datetime.d_date Datetime.d_time Date.d_serialDate Time.d_milliseconds].
  unfold Time.sinceMidnight, Time.valid in *. unfold_units.
  apply andb_true_iff. rewrite !Z.leb_le.
  change (86399999 mod 86400000) with 86399999.
  change (0 mod 86400000) with 0.
  destruct (Z.eqb_spec (Time.d_milliseconds (Datetime.d_time dt)) 86400000) as [E | E].
  - rewrite E in *. change (86400000 mod 86400000) with 0. lia.
  - rewrite (Z.mod_small (Time.d_milliseconds (Datetime.d_time dt))) by lia. lia.
Qed.

(** X15.  The range assertion of the scalar adders,
    [0 == Date(d_date).addDaysIfValid(numDays)], accepts exactly the
    amounts that the two range assertions of [addTime] and [operator+=]
    accept, for an amount whose day count fits an [int]. *)
Theorem scalar_assertion_is_interval_assertion (dt : Datetime.t) (totalMsec : Z) :
  Time.valid (Datetime.d_time dt) ->
  - 2 ^ 31 * k_MILLISECONDS_PER_DAY <= totalMsec < (2 ^ 31 - 1) * k_MILLISECONDS_PER_DAY ->
  Datetime.addTotalMsec_pre dt totalMsec
  = Datetime.inRange_pre dt (DatetimeInterval.mk totalMsec).
Proof.
  unfold_units. intros Hv Hr.
  pose proof (sinceMidnight_range _ Hv) as Ht.
  destruct (addTotalMsec_floor dt totalMsec Hv Hr) as (_ & _ & Hn & _).
  pose proof (inRange_pre_iff dt (DatetimeInterval.mk totalMsec) Hv) as Hiff.
  cbn [DatetimeInterval.totalMilliseconds] in Hiff.
  unfold Datetime.addTotalMsec_pre, Datetime.addDays_pre, Date.addDaysIfValid.
  rewrite Hn.
  destruct (Date.isValidSerial
              (Date.d_serialDate (Datetime.d_date dt)
               + (Time.sinceMidnight (Datetime.d_time dt) + totalMsec) / 86400000))
    eqn:E; cbn [fst].
  - symmetry. apply Hiff. unfold Date.isValidSerial in E. unfold_units. bool_to_prop.
    Z.to_euclidean_division_equations. lia.
  - destruct (Datetime.inRange_pre dt (DatetimeInterval.mk totalMsec)) eqn:E';
      [| reflexivity].
    exfalso. pose proof (proj1 Hiff eq_refl) as Hb.
    unfold Date.isValidSerial in E. unfold_units.
    apply andb_false_iff in E. destruct E as [E | E]; bool_to_prop;
      Z.to_euclidean_division_equations; lia.
Qed.

Lemma scalar_assertion_is_interval_assertion_witness :
  let dt := Datetime.ofFields 9999 12 31 23 0 0 0 in
  (Time.valid (Datetime.d_time dt)
   /\ - 2 ^ 31 * k_MILLISECONDS_PER_DAY <= 3600000 < (2 ^ 31 - 1) * k_MILLISECONDS_PER_DAY)
  /\ Datetime.addTotalMsec_pre dt 3600000 = false
  /\ Datetime.inRange_pre dt (DatetimeInterval.ofFields 0 1 0 0 0) = false
  /\ Datetime.addTotalMsec_pre dt 3599999 = true.
Proof.
  intros dt.
  assert (Hv : Time.valid (Datetime.d_time dt)) by (split; vm_compute; discriminate).
  assert (Hr : - 2 ^ 31 * k_MILLISECONDS_PER_DAY <= 3600000
               < (2 ^ 31 - 1) * k_MILLISECONDS_PER_DAY)
    by (split; [vm_compute; discriminate | reflexivity]).
  split; [exact (conj Hv Hr) |].
  pose proof (scalar_assertion_is_interval_assertion dt 3600000 Hv Hr) as E.
  split; [rewrite E; reflexivity | split; reflexivity].
Defined.

(** ** Externalization: versions and framing *)

(** X16.  With a version other than 1, [bdexStreamIn] and [bdexStreamOut]
    invalidate a valid stream and do nothing else: no byte is read or
    written and the object keeps its value.  On a stream that is invalid
    on entry neither has any effect, whatever the version. *)
Theorem bdex_unsupported_version {sub : Bdex.SubStreams}
    (version : Z) (dt : Datetime.t) (bytes : list byte) :
  version <> 1 ->
  Datetime.bdexStreamIn (Bdex.mkIn bytes true) version dt = (Bdex.mkIn bytes false, dt)
  /\ Datetime.bdexStreamOut (Bdex.mkOut bytes true) version dt = Bdex.mkOut bytes false
  /\ Datetime.bdexStreamIn (Bdex.mkIn bytes false) version dt = (Bdex.mkIn bytes false, dt)
  /\ Datetime.bdexStreamIn (Bdex.mkIn bytes false) 1 dt = (Bdex.mkIn bytes false, dt)
  /\ Datetime.bdexStreamOut (Bdex.mkOut bytes false) version dt = Bdex.mkOut bytes false
  /\ Datetime.bdexStreamOut (Bdex.mkOut bytes false) 1 dt = Bdex.mkOut bytes false.
Proof.
  intros Hv.
  unfold Datetime.bdexStreamIn, Datetime.bdexStreamOut.
  cbn [Bdex.in_valid Bdex.out_valid].
  destruct version as [| [p | p |] |]; try contradiction; repeat split.
Qed.

Lemma bdex_unsupported_version_witness :
  let dt := Datetime.ofFields 2013 1 6 20 43 0 0 in
  let bytes := Bdex.putDate3 (Date.ofYearMonthDay 2014 6 26) ++ Bdex.putTime4 Time.default in
  2 <> 1
  /\ Datetime.bdexStreamIn (Bdex.mkIn bytes true) 2 dt = (Bdex.mkIn bytes false, dt)
  /\ Datetime.bdexStreamOut (Bdex.mkOut bytes true) 2 dt = Bdex.mkOut bytes false.
Proof.
  intros dt bytes.
  assert (Hv : 2 <> 1) by discriminate.
  split; [exact Hv |].
  destruct (bdex_unsupported_version 2 dt bytes Hv) as (E1 & E2 & _).
  exact (conj E1 E2).
Defined.

Lemma bdexStreamOut_append {sub : Bdex.SubStreams} (bs : list byte) (dt : Datetime.t) :
  Datetime.bdexStreamOut (Bdex.mkOut bs true) 1 dt
  = Bdex.mkOut
      (bs ++ Bdex.putDate (Datetime.d_date dt) ++ Bdex.putTime (Datetime.d_time dt)) true.
Proof.
  unfold Datetime.bdexStreamOut, Bdex.Date_bdexStreamOut, Bdex.Time_bdexStreamOut.
  cbn [Bdex.out_valid Bdex.out_bytes]. rewrite <- app_assoc. reflexivity.
Qed.

(** X17.  The format frames itself: values written one after the other to
    one stream at version 1 are read back one after the other, each read
    consuming exactly the bytes of one value and leaving the stream
    valid. *)
Theorem bdex_sequence_round_trip {sub : Bdex.SubStreams}
    (dt1 dt2 target1 target2 : Datetime.t) (rest : list byte) :
  Datetime.I1 dt1 -> Datetime.I1 dt2 ->
  let written :=
    Datetime.bdexStreamOut (Datetime.bdexStreamOut Bdex.openOut 1 dt1) 1 dt2 in
  let first := Datetime.bdexStreamIn (Bdex.openIn (Bdex.out_bytes written ++ rest)) 1 target1 in
  let second := Datetime.bdexStreamIn (fst first) 1 target2 in
  Bdex.out_valid written = true
  /\ snd first = dt1
  /\ snd second = dt2
  /\ fst second = Bdex.mkIn rest true.
Proof.
  intros H1 H2. destruct (I1_valid dt1 H1) as [Hd1 Ht1].
  destruct (I1_valid dt2 H2) as [Hd2 Ht2]. cbv zeta.
  unfold Bdex.openOut. rewrite !bdexStreamOut_append.
  cbn [Bdex.out_valid Bdex.out_bytes app].
  rewrite <- !app_assoc.
  rewrite (bdexStreamIn_well_formed (Datetime.d_date dt1) (Datetime.d_time dt1) _ target1 Hd1 Ht1).
  cbn [fst snd].
  change (Bdex.mkIn ?bs true) with (Bdex.openIn bs).
  rewrite (bdexStreamIn_well_formed (Datetime.d_date dt2) (Datetime.d_time dt2) rest target2 Hd2 Ht2).
  cbn [fst snd]. destruct dt1, dt2. repeat split.
Qed.

Lemma bdex_sequence_round_trip_witness :
  let dt1 := Datetime.default in
  let dt2 := Datetime.ofFields 2013 1 6 20 43 0 0 in
  (Datetime.I1 dt1 /\ Datetime.I1 dt2)
  /\ Bdex.out_bytes
       (Datetime.bdexStreamOut (Datetime.bdexStreamOut Bdex.openOut 1 dt1) 1 dt2)
     = [x00; x00; x01; x05; x26; x5c; x00; x0b; x36; x9a; x04; x72; x00; x20]
  /\ snd (Datetime.bdexStreamIn
            (fst (Datetime.bdexStreamIn
                    (Bdex.openIn
                       (Bdex.out_bytes
                          (Datetime.bdexStreamOut
                             (Datetime.bdexStreamOut Bdex.openOut 1 dt1) 1 dt2) ++ []))
                    1 dt2))
            1 dt1)
     = dt2.
Proof.
  intros dt1 dt2.
  assert (H1 : Datetime.I1 dt1) by (right; split; reflexivity).
  assert (H2 : Datetime.I1 dt2).
  { left. split; [vm_compute; discriminate |]. split; split; vm_compute; discriminate. }
  split; [exact (conj H1 H2) |]. split; [reflexivity |].
  destruct (bdex_sequence_round_trip dt1 dt2 dt2 dt1 [] H1 H2) as (_ & _ & E & _).
  exact E.
Defined.

(** ** The normaliser, day addition and translation *)

(** X18.  [setTimeToZeroIfDefault] never returns the default value, never
    changes the date, is idempotent, and changes the time only of the
    default value. *)
Theorem setTimeToZeroIfDefault_normalises (dt : Datetime.t) :
  Datetime.setTimeToZeroIfDefault dt <> Datetime.default
  /\ Datetime.d_date (Datetime.setTimeToZeroIfDefault dt) = Datetime.d_date dt
  /\ Datetime.setTimeToZeroIfDefault (Datetime.setTimeToZeroIfDefault dt)
     = Datetime.setTimeToZeroIfDefault dt
  /\ (Datetime.d_time (Datetime.setTimeToZeroIfDefault dt) = Datetime.d_time dt
      \/ dt = Datetime.default).
Proof.
  unfold Datetime.setTimeToZeroIfDefault.
  destruct (Time.eqb Datetime.s_defaultTime (Datetime.d_time dt)) eqn:Et;
    [destruct (Date.eqb Datetime.s_defaultDate (Datetime.d_date dt)) eqn:Ed |];
    cbn [andb].
  - apply Time_eqb_eq in Et. apply Date_eqb_eq in Ed.
    destruct dt as [d t]. cbn [Datetime.d_date Datetime.d_time] in *. subst.
    repeat split; [discriminate | right; reflexivity].
  - rewrite Et, Ed. cbn [andb]. repeat split; [| left; reflexivity].
    intros E. rewrite E in Ed. vm_compute in Ed. discriminate.
  - rewrite Et. cbn [andb]. repeat split; [| left; reflexivity].
    intros E. rewrite E in Et. vm_compute in Et. discriminate.
Qed.

(** X19.  On a value that satisfies the invariant, the sentinel included,
    [addDays(n)] is [operator+=] with the interval of [n] whole days. *)
Theorem addDays_is_whole_day_interval (dt : Datetime.t) (n : Z) :
  Datetime.I1 dt ->
  Datetime.addDays dt n = Datetime.addAssign dt (DatetimeInterval.ofFields n 0 0 0 0).
Proof.
  intros HI. destruct (I1_cases dt HI) as (_ & Hs & Hdef).
  rewrite addAssign_floor.
  unfold DatetimeInterval.ofFields. cbn [DatetimeInterval.totalMilliseconds].
  unfold_units.
  replace (Time.sinceMidnight (Datetime.d_time dt)
           + (n * 86400000 + 0 * 3600000 + 0 * 60000 + 0 * 1000 + 0))
    with (Time.sinceMidnight (Datetime.d_time dt) + n * 86400000) by lia.
  rewrite Z.div_add, Z.mod_add by lia.
  rewrite Z.div_small, Z.mod_small by lia. rewrite Z.add_0_l.
  unfold Datetime.addDays, Datetime.setTimeToZeroIfDefault.
  destruct (Time.eqb Datetime.s_defaultTime (Datetime.d_time dt)) eqn:Et.
  - apply Time_eqb_eq in Et. symmetry in Et.
    rewrite (proj2 (Date_eqb_eq Datetime.s_defaultDate (Datetime.d_date dt)))
      by (symmetry; exact (Hdef Et)).
    cbn [andb Datetime.d_date Datetime.d_time]. rewrite Et. reflexivity.
  - cbn [andb]. rewrite sinceMidnight_not_default.
    + destruct dt as [d [t]]. reflexivity.
    + intros E. rewrite E in Et. vm_compute in Et. discriminate.
Qed.

Lemma addDays_is_whole_day_interval_witness :
  Datetime.I1 Datetime.default
  /\ Datetime.addAssign Datetime.default (DatetimeInterval.ofFields 10 0 0 0 0)
     = Datetime.ofFields 1 1 11 0 0 0 0
  /\ Datetime.addDays Datetime.default 10 = Datetime.ofFields 1 1 11 0 0 0 0.
Proof.
  assert (HI : Datetime.I1 Datetime.default) by (right; split; reflexivity).
  split; [exact HI |]. split; [reflexivity |].
  rewrite (addDays_is_whole_day_interval Datetime.default 10 HI). reflexivity.
Defined.

(** X20.  Adding one interval to two values that are not the sentinel
    keeps their order and their equality: [a + i < b + i] exactly when
    [a < b], and [a + i == b + i] exactly when [a == b]. *)
Theorem plus_preserves_order (a b : Datetime.t) (i : DatetimeInterval.t) :
  Datetime.I1 a -> Datetime.d_time a <> Time.default ->
  Datetime.I1 b -> Datetime.d_time b <> Time.default ->
  Datetime.ltb (Datetime.plus a i) (Datetime.plus b i) = Datetime.ltb a b
  /\ Datetime.eqb (Datetime.plus a i) (Datetime.plus b i) = Datetime.eqb a b.
Proof.
  intros HIa Hna HIb Hnb.
  destruct (I1_valid a HIa) as [_ Hva]. destruct (I1_valid b HIb) as [_ Hvb].
  pose proof (not_default_range _ Hva Hna) as Ha.
  pose proof (not_default_range _ Hvb Hnb) as Hb.
  unfold Datetime.plus. rewrite !addAssign_floor.
  rewrite !sinceMidnight_not_default by assumption.
  destruct i as [total]. destruct a as [[sa] [ta]], b as [[sb] [tb]].
  unfold Datetime.eqb, Datetime.ltb, Datetime.date, Datetime.time,
    Date.eqb, Date.ltb, Time.eqb, Time.ltb, Date.addDays.
  cbn [Datetime.d_date Datetime.d_time Date.d_serialDate Time.d_milliseconds
       DatetimeInterval.totalMilliseconds] in *.
  pose proof (Z.div_mod (ta + total) 86400000 ltac:(lia)) as Hdma.
  pose proof (Z.mod_pos_bound (ta + total) 86400000 eq_refl) as Hmba.
  pose proof (Z.div_mod (tb + total) 86400000 ltac:(lia)) as Hdmb.
  pose proof (Z.mod_pos_bound (tb + total) 86400000 eq_refl) as Hmbb.
  set (qa := (ta + total) / 86400000) in *. set (ra := (ta + total) mod 86400000) in *.
  set (qb := (tb + total) / 86400000) in *. set (rb := (tb + total) mod 86400000) in *.
  destruct (Z.eqb_spec (sa + qa) (sb + qb)), (Z.ltb_spec (sa + qa) (sb + qb)),
    (Z.eqb_spec ra rb), (Z.ltb_spec ra rb),
    (Z.eqb_spec sa sb), (Z.ltb_spec sa sb), (Z.eqb_spec ta tb), (Z.ltb_spec ta tb);
    cbn [andb orb]; try lia; split; reflexivity.
Qed.

Lemma plus_preserves_order_witness :
  let a := Datetime.ofFields 2013 1 6 20 43 0 0 in
  let b := Datetime.ofFields 2013 1 6 23 59 59 999 in
  let i := DatetimeInterval.ofFields 0 6 0 9 0 in
  (Datetime.I1 a /\ Datetime.d_time a <> Time.default
   /\ Datetime.I1 b /\ Datetime.d_time b <> Time.default)
  /\ Datetime.ltb a b = true
  /\ Datetime.ltb (Datetime.plus a i) (Datetime.plus b i) = true.
Proof.
  intros a b i.
  assert (Hna : Datetime.d_time a <> Time.default) by (vm_compute; discriminate).
  assert (Hnb : Datetime.d_time b <> Time.default) by (vm_compute; discriminate).
  assert (HIa : Datetime.I1 a).
  { left. split; [exact Hna |]. split; split; vm_compute; discriminate. }
  assert (HIb : Datetime.I1 b).
  { left. split; [exact Hnb |]. split; split; vm_compute; discriminate. }
  split; [auto |]. split; [reflexivity |].
  rewrite (proj1 (plus_preserves_order a b i HIa Hna HIb Hnb)). reflexivity.
Defined.
